(** * Walkie-Talkie firmware: debounced switch monitor and link mode controller

    A shallow embedding of [include/RotatoryEncoder.hpp] and of the CC1101
    sketch in [src/main.cpp], followed by the properties of the two
    components.

    Conventions.
    - [unsigned long] is 32 bits wide on the target; values are kept in [Z]
      and every subtraction wraps modulo [2^32].
    - [digitalRead] yields one of the two Arduino pin levels; the [int] that
      stores it is modelled by the two-constructor type [Level].
    - The radio driver is external: the controller is parametrised by a
      driver interface, and a scripted fake instantiates it for concrete
      runs. *)

From Stdlib Require Import ZArith List Bool String Lia.
From Stdlib Require Import DecimalString.
Import ListNotations.
Open Scope Z_scope.

(* ================================================================== *)
(** ** Machine integers *)

Definition ulong_modulus : Z := 2 ^ 32.

(** Conversion to [unsigned long]. *)
Definition ulong (z : Z) : Z := z mod ulong_modulus.

(** [a - b] on [unsigned long] operands. *)
Definition ulong_sub (a b : Z) : Z := (a - b) mod ulong_modulus.

(** Conversion to [uint8_t]. *)
Definition uint8 (z : Z) : Z := z mod 2 ^ 8.

(** [millis()] when [t] milliseconds have passed since boot. *)
Definition millis (t : Z) : Z := ulong t.

(* ================================================================== *)
(** ** RotatoryEncoder.hpp *)

Module RotatoryEncoder.

Inductive SwitchState : Type := PRESSED | HELD | RELEASED.

Inductive Level : Type := LOW | HIGH.

Definition SwitchState_eqb (a b : SwitchState) : bool :=
  match a, b with
  | PRESSED, PRESSED | HELD, HELD | RELEASED, RELEASED => true
  | _, _ => false
  end.

Definition Level_eqb (a b : Level) : bool :=
  match a, b with
  | LOW, LOW | HIGH, HIGH => true
  | _, _ => false
  end.

Record t : Type := mk {
  _switchPin : Z;
  _debounceDelay : Z;
  _holdTime : Z;
  _previousState : SwitchState;
  _currentState : SwitchState;
  _lastReading : Level;
  _lastDebounceTime : Z;
  _pressStartTime : Z
}.

Definition set_previousState (v : SwitchState) (e : t) : t :=
  mk (_switchPin e) (_debounceDelay e) (_holdTime e) v (_currentState e)
     (_lastReading e) (_lastDebounceTime e) (_pressStartTime e).

Definition set_currentState (v : SwitchState) (e : t) : t :=
  mk (_switchPin e) (_debounceDelay e) (_holdTime e) (_previousState e) v
     (_lastReading e) (_lastDebounceTime e) (_pressStartTime e).

Definition set_lastReading (v : Level) (e : t) : t :=
  mk (_switchPin e) (_debounceDelay e) (_holdTime e) (_previousState e)
     (_currentState e) v (_lastDebounceTime e) (_pressStartTime e).

Definition set_lastDebounceTime (v : Z) (e : t) : t :=
  mk (_switchPin e) (_debounceDelay e) (_holdTime e) (_previousState e)
     (_currentState e) (_lastReading e) v (_pressStartTime e).

Definition set_pressStartTime (v : Z) (e : t) : t :=
  mk (_switchPin e) (_debounceDelay e) (_holdTime e) (_previousState e)
     (_currentState e) (_lastReading e) (_lastDebounceTime e) v.

(** Constructor; the arguments are converted to the parameter types. *)
Definition new (switchPin debounceDelay holdTime : Z) : t :=
  mk (uint8 switchPin) (ulong debounceDelay) (ulong holdTime)
     RELEASED RELEASED HIGH 0 0.

(** Constructor with the default [debounceDelay = 50], [holdTime = 1000]. *)
Definition new_default (switchPin : Z) : t := new switchPin 50 1000.

(** [update()], given the level returned by [digitalRead(_switchPin)] and the
    value [now] returned by [millis()] during the call. *)
Definition update (e : t) (reading : Level) (now : Z) : t :=
  (* if (reading != _lastReading) _lastDebounceTime = millis(); *)
  let e :=
    if negb (Level_eqb reading (_lastReading e))
    then set_lastDebounceTime now e else e in
  (* _lastReading = reading; *)
  let e := set_lastReading reading e in
  if ulong_sub now (_lastDebounceTime e) >? _debounceDelay e then
    if Level_eqb reading LOW && SwitchState_eqb (_currentState e) RELEASED then
      set_pressStartTime now (set_currentState PRESSED e)
    else if Level_eqb reading LOW && SwitchState_eqb (_currentState e) PRESSED then
      if ulong_sub now (_pressStartTime e) >? _holdTime e
      then set_currentState HELD e
      else e
    else if Level_eqb reading HIGH
            && negb (SwitchState_eqb (_currentState e) RELEASED) then
      set_currentState RELEASED e
    else e
  else e.

Definition isPressed (e : t) : bool := SwitchState_eqb (_currentState e) PRESSED.
Definition isHeld (e : t) : bool := SwitchState_eqb (_currentState e) HELD.
Definition isReleased (e : t) : bool := SwitchState_eqb (_currentState e) RELEASED.

(** [wasPressed()]: the returned flag and the encoder after the call. *)
Definition wasPressed (e : t) : bool * t :=
  if SwitchState_eqb (_currentState e) PRESSED
     && negb (SwitchState_eqb (_previousState e) PRESSED)
  then (true, set_previousState PRESSED e)
  else (false, set_previousState (_currentState e) e).

(** [wasReleased()]. *)
Definition wasReleased (e : t) : bool * t :=
  if SwitchState_eqb (_currentState e) RELEASED
     && negb (SwitchState_eqb (_previousState e) RELEASED)
  then (true, set_previousState RELEASED e)
  else (false, set_previousState (_currentState e) e).

(** A sample is the raw level together with the time since boot (in ms) at
    which [update] read it. *)
Definition Sample : Type := (Level * Z)%type.

(** Feed a sequence of samples to successive [update] calls. *)
Definition run (e : t) (samples : list Sample) : t :=
  fold_left (fun e s => update e (fst s) (millis (snd s))) samples e.

(** Sample times never go backwards. *)
Fixpoint ascending (samples : list Sample) : Prop :=
  match samples with
  | [] => True
  | s :: rest => Forall (fun x => snd s <= snd x) rest /\ ascending rest
  end.

(** Raw level of the most recent sample; [HIGH] (the constructor's
    [_lastReading]) when there is none. *)
Definition last_reading (samples : list Sample) : Level :=
  fst (last samples (HIGH, 0)).

(** The calls a client can make on the switch monitor in a polling loop. *)
Inductive Call : Type :=
| CallUpdate (reading : Level) (t : Z)
| CallWasPressed.

(** Execute a sequence of calls, collecting what each [wasPressed] returned. *)
Fixpoint exec (e : t) (cs : list Call) : t * list bool :=
  match cs with
  | [] => (e, [])
  | CallUpdate r t :: cs' => exec (update e r (millis t)) cs'
  | CallWasPressed :: cs' =>
      let (b, e') := wasPressed e in
      let (e'', bs) := exec e' cs' in
      (e'', b :: bs)
  end.

(** The controller's polling pattern: [update] then [wasPressed], per sample. *)
Fixpoint poll (e : t) (samples : list Sample) : t * list bool :=
  match samples with
  | [] => (e, [])
  | s :: rest =>
      let (b, e') := wasPressed (update e (fst s) (millis (snd s))) in
      let (e'', bs) := poll e' rest in
      (e'', b :: bs)
  end.

End RotatoryEncoder.

(* ================================================================== *)
(** ** The radio driver interface consumed by main.cpp *)

(** The CC1101 driver of RadioLib, as far as the sketch uses it.  [R] is the
    state of the driver and of the transceiver behind it, [F] the type of the
    [float] returned by [getRSSI].  The two status constants come from the
    library's headers and are part of the interface. *)
Record RadioLib (R F : Type) : Type := {
  RADIOLIB_ERR_NONE : Z;
  RADIOLIB_ERR_CRC_MISMATCH : Z;
  drv_begin : R -> Z * R;
  drv_startReceive : R -> Z * R;
  drv_readData : R -> (Z * string) * R;
  drv_getRSSI : R -> F * R;
  drv_getLQI : R -> Z * R;
  drv_startTransmit : string -> R -> Z * R;
  drv_finishTransmit : R -> R
}.

Arguments RADIOLIB_ERR_NONE {R F} _.
Arguments RADIOLIB_ERR_CRC_MISMATCH {R F} _.
Arguments drv_begin {R F} _ _.
Arguments drv_startReceive {R F} _ _.
Arguments drv_readData {R F} _ _.
Arguments drv_getRSSI {R F} _ _.
Arguments drv_getLQI {R F} _ _.
Arguments drv_startTransmit {R F} _ _ _.
Arguments drv_finishTransmit {R F} _ _.

(* ================================================================== *)
(** ** main.cpp: data *)

Inductive Mode : Type := RECEIVE | TRANSMIT.

Definition Mode_eqb (a b : Mode) : bool :=
  match a, b with
  | RECEIVE, RECEIVE | TRANSMIT, TRANSMIT => true
  | _, _ => false
  end.

(** The two volatile event flags. *)
Inductive Flag : Type := ReceivedFlag | TransmittedFlag.

(** The two interrupt callbacks of the sketch. *)
Inductive Callback : Type := SetReceiveFlag | SetSentFlag.

(** Interrupt requests raised by the transceiver. *)
Inductive Irq : Type := PacketReceived | PacketSent.

(** Driver calls that return a status code. *)
Inductive RadioOp : Type :=
| OpBegin
| OpStartReceive
| OpReadData
| OpStartTransmit (payload : string).

(** Observable actions of the program, in program order: serial output,
    driver calls (with the status they returned), delays and the accesses
    to the volatile flags. *)
Inductive Event (F : Type) : Type :=
| EvSerialBegin (baud : Z)
| EvPinMode (pin : Z)
| EvSpiBegin (sck miso mosi ss : Z)
| EvPrint (s : string)
| EvPrintln (s : string)
| EvPrintlnInt (z : Z)
| EvPrintFloat (x : F)
| EvRadio (op : RadioOp) (status : Z)
| EvGetRSSI
| EvGetLQI
| EvFinishTransmit
| EvSetPacketReceivedAction (cb : Callback)
| EvSetPacketSentAction (cb : Callback)
| EvDelay (ms : Z)
| EvFlagRead (f : Flag) (v : bool)
| EvFlagWrite (f : Flag) (v : bool).

Arguments EvSerialBegin {F} _.
Arguments EvPinMode {F} _.
Arguments EvSpiBegin {F} _ _ _ _.
Arguments EvPrint {F} _.
Arguments EvPrintln {F} _.
Arguments EvPrintlnInt {F} _.
Arguments EvPrintFloat {F} _.
Arguments EvRadio {F} _ _.
Arguments EvGetRSSI {F}.
Arguments EvGetLQI {F}.
Arguments EvFinishTransmit {F}.
Arguments EvSetPacketReceivedAction {F} _.
Arguments EvSetPacketSentAction {F} _.
Arguments EvDelay {F} _.
Arguments EvFlagRead {F} _ _.
Arguments EvFlagWrite {F} _ _.

(** An event is a call into the radio driver. *)
Definition is_radio_call {F : Type} (ev : Event F) : bool :=
  match ev with
  | EvRadio _ _ | EvGetRSSI | EvGetLQI | EvFinishTransmit
  | EvSetPacketReceivedAction _ | EvSetPacketSentAction _ => true
  | _ => false
  end.

Definition SCK_PIN : Z := 47.
Definition MISO_PIN : Z := 45.
Definition MOSI_PIN : Z := 20.
Definition SWITCH_PIN : Z := 4.

(** Conversion to [int] (32 bits, two's complement). *)
Definition int_wrap (z : Z) : Z := (z + 2 ^ 31) mod 2 ^ 32 - 2 ^ 31.

(** [String(n)] for an [int]. *)
Definition String_of_int (z : Z) : string := NilZero.string_of_int (Z.to_int z).

Definition tab : string := String (Ascii.ascii_of_nat 9) EmptyString.

(** The global variables of the sketch. *)
Record Globals : Type := mkGlobals {
  rotatoryEncoder : RotatoryEncoder.t;
  transmissionState : Z;
  countReceivedPackets : Z;
  currentMode : Mode;
  previousMode : Mode;
  modeChanged : bool;
  receivedFlag : bool;
  transmittedFlag : bool
}.

Definition set_rotatoryEncoder (v : RotatoryEncoder.t) (g : Globals) : Globals :=
  mkGlobals v (transmissionState g) (countReceivedPackets g) (currentMode g)
            (previousMode g) (modeChanged g) (receivedFlag g) (transmittedFlag g).

Definition set_transmissionState (v : Z) (g : Globals) : Globals :=
  mkGlobals (rotatoryEncoder g) v (countReceivedPackets g) (currentMode g)
            (previousMode g) (modeChanged g) (receivedFlag g) (transmittedFlag g).

Definition set_countReceivedPackets (v : Z) (g : Globals) : Globals :=
  mkGlobals (rotatoryEncoder g) (transmissionState g) v (currentMode g)
            (previousMode g) (modeChanged g) (receivedFlag g) (transmittedFlag g).

Definition set_currentMode (v : Mode) (g : Globals) : Globals :=
  mkGlobals (rotatoryEncoder g) (transmissionState g) (countReceivedPackets g) v
            (previousMode g) (modeChanged g) (receivedFlag g) (transmittedFlag g).

Definition set_modeChanged (v : bool) (g : Globals) : Globals :=
  mkGlobals (rotatoryEncoder g) (transmissionState g) (countReceivedPackets g)
            (currentMode g) (previousMode g) v (receivedFlag g) (transmittedFlag g).

Definition set_receivedFlag (v : bool) (g : Globals) : Globals :=
  mkGlobals (rotatoryEncoder g) (transmissionState g) (countReceivedPackets g)
            (currentMode g) (previousMode g) (modeChanged g) v (transmittedFlag g).

Definition set_transmittedFlag (v : bool) (g : Globals) : Globals :=
  mkGlobals (rotatoryEncoder g) (transmissionState g) (countReceivedPackets g)
            (currentMode g) (previousMode g) (modeChanged g) (receivedFlag g) v.

Definition flag_value (f : Flag) (g : Globals) : bool :=
  match f with
  | ReceivedFlag => receivedFlag g
  | TransmittedFlag => transmittedFlag g
  end.

Definition set_flag (f : Flag) (v : bool) (g : Globals) : Globals :=
  match f with
  | ReceivedFlag => set_receivedFlag v g
  | TransmittedFlag => set_transmittedFlag v g
  end.

(** The program state: the globals and the board around them. *)
Record State (R : Type) : Type := mkState {
  globals : Globals;
  clock : Z;                          (* ms since boot; millis() wraps it *)
  switchLevel : RotatoryEncoder.Level; (* level on SWITCH_PIN *)
  radio : R;
  packetReceivedAction : option Callback;
  packetSentAction : option Callback
}.

Arguments mkState {R} _ _ _ _ _ _.
Arguments globals {R} _.
Arguments clock {R} _.
Arguments switchLevel {R} _.
Arguments radio {R} _.
Arguments packetReceivedAction {R} _.
Arguments packetSentAction {R} _.

Definition set_globals {R} (v : Globals) (s : State R) : State R :=
  mkState v (clock s) (switchLevel s) (radio s)
          (packetReceivedAction s) (packetSentAction s).

Definition set_clock {R} (v : Z) (s : State R) : State R :=
  mkState (globals s) v (switchLevel s) (radio s)
          (packetReceivedAction s) (packetSentAction s).

Definition set_switchLevel {R} (v : RotatoryEncoder.Level) (s : State R) : State R :=
  mkState (globals s) (clock s) v (radio s)
          (packetReceivedAction s) (packetSentAction s).

Definition set_radio {R} (v : R) (s : State R) : State R :=
  mkState (globals s) (clock s) (switchLevel s) v
          (packetReceivedAction s) (packetSentAction s).

Definition set_packetReceivedAction {R} (v : option Callback) (s : State R) : State R :=
  mkState (globals s) (clock s) (switchLevel s) (radio s) v (packetSentAction s).

Definition set_packetSentAction {R} (v : option Callback) (s : State R) : State R :=
  mkState (globals s) (clock s) (switchLevel s) (radio s) (packetReceivedAction s) v.

(** Outcome of running a piece of the program: it returns, or it is caught
    in [while (true) { delay(10); }] and never returns. *)
Inductive Result (R A : Type) : Type :=
| Return (a : A) (s : State R)
| Halt (s : State R).

Arguments Return {R A} _ _.
Arguments Halt {R A} _.

(* ================================================================== *)
(** ** main.cpp: code *)

Section Sketch.

Context {R F : Type}.
Variable lib : RadioLib R F.

(** A computation reads and writes the program state and emits events. *)
Definition M (A : Type) : Type := State R -> list (Event F) * Result R A.

Definition ret {A} (a : A) : M A := fun s => ([], Return a s).

Definition bind {A B} (c : M A) (k : A -> M B) : M B :=
  fun s =>
    match c s with
    | (evs, Return a s') => let (evs', r) := k a s' in (evs ++ evs', r)
    | (evs, Halt s') => (evs, Halt s')
    end.

Notation "x <- c ;; k" := (bind c (fun x => k))
  (at level 61, c at next level, right associativity).
Notation "c ;; k" := (bind c (fun _ => k))
  (at level 61, right associativity).

Definition emit (ev : Event F) : M unit := fun s => ([ev], Return tt s).

Definition get {A} (f : Globals -> A) : M A := fun s => ([], Return (f (globals s)) s).

Definition modify (f : Globals -> Globals) : M unit :=
  fun s => ([], Return tt (set_globals (f (globals s)) s)).

(** [while (true) { delay(10); }] *)
Definition halt {A} : M A := fun s => ([], Halt s).

(** One turn of the halt loop. *)
Definition spin (s : State R) : list (Event F) * State R :=
  ([EvDelay 10], set_clock (clock s + 10) s).

Definition delay (ms : Z) : M unit :=
  fun s => ([EvDelay ms], Return tt (set_clock (clock s + ms) s)).

Definition Serial_begin (baud : Z) : M unit := emit (EvSerialBegin baud).
Definition Serial_print (s : string) : M unit := emit (EvPrint s).
Definition Serial_println (s : string) : M unit := emit (EvPrintln s).
Definition Serial_println_int (z : Z) : M unit := emit (EvPrintlnInt z).
Definition Serial_print_float (x : F) : M unit := emit (EvPrintFloat x).

(** Accesses to the volatile flags. *)
Definition read_flag (f : Flag) : M bool :=
  fun s => ([EvFlagRead f (flag_value f (globals s))],
            Return (flag_value f (globals s)) s).

Definition write_flag (f : Flag) (v : bool) : M unit :=
  fun s => ([EvFlagWrite f v], Return tt (set_globals (set_flag f v (globals s)) s)).

(** Driver calls. *)
Definition radio_status (op : RadioOp) (call : R -> Z * R) : M Z :=
  fun s => let (st, r) := call (radio s) in
           ([EvRadio op st], Return st (set_radio r s)).

Definition radio_begin : M Z := radio_status OpBegin (drv_begin lib).

Definition radio_startReceive : M Z :=
  radio_status OpStartReceive (drv_startReceive lib).

Definition radio_startTransmit (payload : string) : M Z :=
  radio_status (OpStartTransmit payload) (drv_startTransmit lib payload).

Definition radio_readData : M (Z * string) :=
  fun s => let (res, r) := drv_readData lib (radio s) in
           ([EvRadio OpReadData (fst res)], Return res (set_radio r s)).

Definition radio_getRSSI : M F :=
  fun s => let (x, r) := drv_getRSSI lib (radio s) in
           ([EvGetRSSI], Return x (set_radio r s)).

Definition radio_getLQI : M Z :=
  fun s => let (x, r) := drv_getLQI lib (radio s) in
           ([EvGetLQI], Return x (set_radio r s)).

Definition radio_finishTransmit : M unit :=
  fun s => ([EvFinishTransmit],
            Return tt (set_radio (drv_finishTransmit lib (radio s)) s)).

Definition radio_setPacketReceivedAction (cb : Callback) : M unit :=
  fun s => ([EvSetPacketReceivedAction cb],
            Return tt (set_packetReceivedAction (Some cb) s)).

Definition radio_setPacketSentAction (cb : Callback) : M unit :=
  fun s => ([EvSetPacketSentAction cb],
            Return tt (set_packetSentAction (Some cb) s)).

(** Calls on the global [rotatoryEncoder]. *)
Definition rotatoryEncoder_begin : M unit :=
  e <- get rotatoryEncoder ;;
  emit (EvPinMode (RotatoryEncoder._switchPin e)).

Definition rotatoryEncoder_update : M unit :=
  fun s =>
    let e := rotatoryEncoder (globals s) in
    let e' := RotatoryEncoder.update e (switchLevel s) (millis (clock s)) in
    ([], Return tt (set_globals (set_rotatoryEncoder e' (globals s)) s)).

Definition rotatoryEncoder_wasPressed : M bool :=
  fun s =>
    let (b, e') := RotatoryEncoder.wasPressed (rotatoryEncoder (globals s)) in
    ([], Return b (set_globals (set_rotatoryEncoder e' (globals s)) s)).

(** The interrupt callbacks. *)
Definition setReceiveFlag : M unit := write_flag ReceivedFlag true.

Definition setSentFlag : M unit := write_flag TransmittedFlag true.

Definition call_back (cb : Callback) : M unit :=
  match cb with
  | SetReceiveFlag => setReceiveFlag
  | SetSentFlag => setSentFlag
  end.

(** Values of the globals before [setup()]. *)
Definition initial_globals : Globals :=
  mkGlobals (RotatoryEncoder.new_default SWITCH_PIN)
            (RADIOLIB_ERR_NONE lib) 0 RECEIVE RECEIVE false false false.

Definition setup : M unit :=
  Serial_begin 115200 ;;
  rotatoryEncoder_begin ;;
  emit (EvSpiBegin SCK_PIN MISO_PIN MOSI_PIN (-1)) ;;
  Serial_print "[CC1101] Initializing ... " ;;
  state <- radio_begin ;;
  (if state =? RADIOLIB_ERR_NONE lib then
     Serial_println "success!"
   else
     Serial_print "failed, code " ;;
     Serial_println_int state ;;
     halt) ;;
  radio_setPacketReceivedAction SetReceiveFlag ;;
  radio_setPacketSentAction SetSentFlag ;;
  Serial_print "[CC1101] Starting to listen ... " ;;
  state <- radio_startReceive ;;
  (if state =? RADIOLIB_ERR_NONE lib then
     Serial_println "success!"
   else
     Serial_print "failed, code " ;;
     Serial_println_int state ;;
     halt).

Definition handleReceivedPacket : M unit :=
  changed <- get modeChanged ;;
  (if changed then
     Serial_print "[CC1101] Starting to listen ... " ;;
     state <- radio_startReceive ;;
     (if state =? RADIOLIB_ERR_NONE lib then
        Serial_println "Success!"
      else
        Serial_print "Failed, code " ;;
        Serial_println_int state ;;
        halt)
   else ret tt) ;;
  received <- read_flag ReceivedFlag ;;
  if received then
    write_flag ReceivedFlag false ;;
    res <- radio_readData ;;
    let state := fst res in
    let str := snd res in
    (if state =? RADIOLIB_ERR_NONE lib then
       Serial_println "[CC1101] Received packet!" ;;
       Serial_print ("[CC1101] Data:" ++ tab ++ tab) ;;
       Serial_println str ;;
       Serial_print ("[CC1101] RSSI:" ++ tab ++ tab) ;;
       rssi <- radio_getRSSI ;;
       Serial_print_float rssi ;;
       Serial_println " dBm" ;;
       Serial_print ("[CC1101] LQI:" ++ tab ++ tab) ;;
       lqi <- radio_getLQI ;;
       Serial_println_int lqi
     else if state =? RADIOLIB_ERR_CRC_MISMATCH lib then
       Serial_println "CRC error!"
     else
       Serial_print "Failed, code " ;;
       Serial_println_int state) ;;
    _ <- radio_startReceive ;;
    ret tt
  else ret tt.

Definition handleSentPacket : M unit :=
  modify (set_transmissionState (RADIOLIB_ERR_NONE lib)) ;;
  changed <- get modeChanged ;;
  (if changed then
     Serial_print "[CC1101] Sending first packet ... " ;;
     st <- radio_startTransmit "Hello World!" ;;
     modify (set_transmissionState st)
   else ret tt) ;;
  transmitted <- read_flag TransmittedFlag ;;
  if transmitted then
    write_flag TransmittedFlag false ;;
    status <- get transmissionState ;;
    (if status =? RADIOLIB_ERR_NONE lib then
       Serial_println "Transmission finished!"
     else
       Serial_print "Failed, code " ;;
       Serial_println_int status) ;;
    radio_finishTransmit ;;
    delay 1000 ;;
    Serial_print "[CC1101] Sending another packet ... " ;;
    n <- get countReceivedPackets ;;
    modify (set_countReceivedPackets (int_wrap (n + 1))) ;;
    let str := ("Hello World! #" ++ String_of_int n)%string in
    st <- radio_startTransmit str ;;
    modify (set_transmissionState st)
  else ret tt.

Definition toggle (m : Mode) : Mode :=
  if Mode_eqb m RECEIVE then TRANSMIT else RECEIVE.

Definition handleRotatoryEncoder : M unit :=
  rotatoryEncoder_update ;;
  pressed <- rotatoryEncoder_wasPressed ;;
  (if pressed then
     m <- get currentMode ;;
     modify (set_currentMode (toggle m)) ;;
     modify (set_modeChanged true) ;;
     Serial_print "Switched to " ;;
     m <- get currentMode ;;
     Serial_println (if Mode_eqb m RECEIVE then "RECEIVE mode" else "TRANSMIT mode")
   else
     modify (set_modeChanged false)) ;;
  m <- get currentMode ;;
  if Mode_eqb m RECEIVE then handleReceivedPacket else handleSentPacket.

Definition loop : M unit := handleRotatoryEncoder.

(* ------------------------------------------------------------------ *)
(** *** The program on the board *)

(** The sketch is either between two calls of [loop()], or caught for ever in
    one of its halt loops. *)
Inductive Machine : Type :=
| Running (s : State R)
| Halted (s : State R).

Definition machine_of (r : Result R unit) : Machine :=
  match r with
  | Return _ s => Running s
  | Halt s => Halted s
  end.

Definition state_of (m : Machine) : State R :=
  match m with
  | Running s | Halted s => s
  end.

Definition is_halted (m : Machine) : bool :=
  match m with
  | Running _ => false
  | Halted _ => true
  end.

(** What the surroundings do between two steps of the program: interrupt
    requests arrive, time passes, the switch takes a level. *)
Record Input : Type := mkInput {
  in_irqs : list Irq;
  in_elapsed : N;
  in_level : RotatoryEncoder.Level
}.

(** An interrupt request runs the callback registered for it, if any. *)
Definition interrupt (i : Irq) : M unit :=
  fun s =>
    let registered :=
      match i with
      | PacketReceived => packetReceivedAction s
      | PacketSent => packetSentAction s
      end in
    match registered with
    | Some cb => call_back cb s
    | None => ([], Return tt s)
    end.

Fixpoint interrupts (l : list Irq) : M unit :=
  match l with
  | [] => ret tt
  | i :: l' => interrupt i ;; interrupts l'
  end.

Definition surroundings (i : Input) : M unit :=
  interrupts (in_irqs i) ;;
  fun s => ([], Return tt (set_switchLevel (in_level i)
                             (set_clock (clock s + Z.of_N (in_elapsed i)) s))).

(** State at power-on, with the driver in state [r]. *)
Definition power_on (r : R) : State R :=
  mkState initial_globals 0 RotatoryEncoder.HIGH r None None.

(** [setup()] from power-on. *)
Definition boot (r : R) : list (Event F) * Machine :=
  let (evs, res) := setup (power_on r) in (evs, machine_of res).

(** One step: a call of [loop()] when running, a turn of the halt loop when
    halted. *)
Definition step (i : Input) (m : Machine) : list (Event F) * Machine :=
  match m with
  | Running s =>
      let (evs, res) := (surroundings i ;; loop) s in (evs, machine_of res)
  | Halted s =>
      match surroundings i s with
      | (evs, Return _ s') => let (evs', s'') := spin s' in (evs ++ evs', Halted s'')
      | (evs, Halt s') => (evs, Halted s')
      end
  end.

Fixpoint steps (inputs : list Input) (m : Machine) : list (Event F) * Machine :=
  match inputs with
  | [] => ([], m)
  | i :: rest =>
      let (evs, m') := step i m in
      let (evs', m'') := steps rest m' in
      (evs ++ evs', m'')
  end.

End Sketch.

Arguments Running {R} _.
Arguments Halted {R} _.
Arguments mkInput _ _ _ : clear implicits.

(* ================================================================== *)
(** ** A scripted driver for concrete runs *)

(** The fake driver holds the status codes its next calls will return; when
    the script runs out, calls succeed. *)
Definition next_status (script : list Z) : Z * list Z :=
  match script with
  | [] => (0, [])
  | c :: rest => (c, rest)
  end.

Definition scripted : RadioLib (list Z) Z := {|
  RADIOLIB_ERR_NONE := 0;
  RADIOLIB_ERR_CRC_MISMATCH := -7;
  drv_begin := next_status;
  drv_startReceive := next_status;
  drv_readData := fun r => let (c, r') := next_status r in ((c, "ping"%string), r');
  drv_getRSSI := fun r => (-60, r);
  drv_getLQI := fun r => (12, r);
  drv_startTransmit := fun _ => next_status;
  drv_finishTransmit := fun r => r
|}.

(* ================================================================== *)
(** ** Vocabulary of the properties *)

Module Props.

Import RotatoryEncoder.

(** In [pre], the raw level has been [r] since the sample taken at [t0], and
    that sample is where the level changed to [r]. *)
Definition stable_since (pre : list Sample) (r : Level) (t0 : Z) : Prop :=
  exists older stable,
    pre = older ++ (r, t0) :: stable
    /\ Forall (fun s => fst s = r) stable
    /\ last_reading older <> r.

(** For each sample fed to [update], whether that call moved [currentState]
    from RELEASED to PRESSED. *)
Fixpoint press_transitions (e : t) (samples : list Sample) : list bool :=
  match samples with
  | [] => []
  | s :: rest =>
      let e' := update e (fst s) (millis (snd s)) in
      (SwitchState_eqb (_currentState e) RELEASED
       && SwitchState_eqb (_currentState e') PRESSED)
        :: press_transitions e' rest
  end.

(** [loop()], entered in state [s], detects a press edge. *)
Definition press_detected {R} (s : State R) : bool :=
  fst (wasPressed (update (rotatoryEncoder (globals s))
                          (switchLevel s) (millis (clock s)))).

(** The state in which [loop()] is entered when the step with input [i]
    starts from [s] and no interrupt is pending: time has passed and the
    switch has its level. *)
Definition arrive {R} (i : Input) (s : State R) : State R :=
  set_switchLevel (in_level i) (set_clock (clock s + Z.of_N (in_elapsed i)) s).

Definition result_state {R A} (r : Result R A) : State R :=
  match r with
  | Return _ s | Halt s => s
  end.

Definition returned {R A} (r : Result R A) : bool :=
  match r with
  | Return _ _ => true
  | Halt _ => false
  end.

(** The globals after interrupt callbacks have raised the flags selected by
    [a] and [b]. *)
Definition raise_flags (a b : bool) (g : Globals) : Globals :=
  set_receivedFlag (receivedFlag g || a)
    (set_transmittedFlag (transmittedFlag g || b) g).


Section Traces.

Context {R F : Type}.
Variable lib : RadioLib R F.

(** [evs] starts with a log line that reports the failure status [code]. *)
Definition reports_failure (code : Z) (evs : list (Event F)) : bool :=
  match evs with
  | EvPrint s :: EvPrintlnInt z :: _ =>
      (String.eqb s "failed, code " || String.eqb s "Failed, code ") && (z =? code)
  | EvPrintln s :: _ =>
      String.eqb s "CRC error!" && (code =? RADIOLIB_ERR_CRC_MISMATCH lib)
  | _ => false
  end.

(** Every driver call that returned a failure status is directly followed
    by a log line that reports it. *)
Fixpoint every_failure_logged (evs : list (Event F)) : bool :=
  match evs with
  | [] => true
  | EvRadio _ st :: rest =>
      ((st =? RADIOLIB_ERR_NONE lib) || reports_failure st rest)
      && every_failure_logged rest
  | _ :: rest => every_failure_logged rest
  end.

(** Every failure status returned by [begin], by [readData] and by a
    [startReceive] that no [readData] precedes in the trace is directly
    followed by a log line that reports it.  [after_read] tells whether a
    [readData] has been seen: in a call of [loop()] the only [startReceive]
    after a [readData] is the re-arm that ends the handling of a received
    packet, and that one is exempt; [startTransmit] is left out. *)
Fixpoint failures_logged_before_rearm
  (after_read : bool) (evs : list (Event F)) : bool :=
  match evs with
  | [] => true
  | EvRadio op st :: rest =>
      match op with
      | OpBegin =>
          ((st =? RADIOLIB_ERR_NONE lib) || reports_failure st rest)
          && failures_logged_before_rearm after_read rest
      | OpReadData =>
          ((st =? RADIOLIB_ERR_NONE lib) || reports_failure st rest)
          && failures_logged_before_rearm true rest
      | OpStartReceive =>
          (after_read || (st =? RADIOLIB_ERR_NONE lib)
           || reports_failure st rest)
          && failures_logged_before_rearm after_read rest
      | OpStartTransmit _ => failures_logged_before_rearm after_read rest
      end
  | _ :: rest => failures_logged_before_rearm after_read rest
  end.


(** Every write to an event flag in [evs] stores [v]. *)
Fixpoint writes_only (v : bool) (evs : list (Event F)) : bool :=
  match evs with
  | [] => true
  | EvFlagWrite _ v' :: rest => Bool.eqb v v' && writes_only v rest
  | _ :: rest => writes_only v rest
  end.


(** No event of [evs] is a call into the radio driver. *)
Definition no_radio_call (evs : list (Event F)) : bool :=
  forallb (fun ev => negb (is_radio_call ev)) evs.

(** Events of the steady-state bodies: a flag is cleared, a packet is read
    or a transmission is finalised. *)
Definition is_steady_state_event (ev : Event F) : bool :=
  match ev with
  | EvFlagWrite _ false | EvRadio OpReadData _ | EvFinishTransmit => true
  | _ => false
  end.

(** Lines 262-269 of main.cpp, the mode switch inside
    [handleRotatoryEncoder], on their own. *)
Definition mode_switch (pressed : bool) : M (R := R) (F := F) unit :=
  if pressed then
    bind (get currentMode) (fun m =>
    bind (modify (set_currentMode (toggle m))) (fun _ =>
    bind (modify (set_modeChanged true)) (fun _ =>
    bind (Serial_print "Switched to ") (fun _ =>
    bind (get currentMode) (fun m =>
    Serial_println (if Mode_eqb m RECEIVE then "RECEIVE mode"
                    else "TRANSMIT mode"))))))
  else modify (set_modeChanged false).

(** Lines 271-272, the dispatch to the handler of the current mode. *)
Definition dispatch : M (R := R) (F := F) unit :=
  bind (get currentMode) (fun m =>
  if Mode_eqb m RECEIVE then handleReceivedPacket lib else handleSentPacket lib).

(** The mode the program is in after each step of a run. *)
Fixpoint modes_visited (inputs : list Input) (m : Machine (R := R))
  : list Mode :=
  match inputs with
  | [] => []
  | i :: rest =>
      let m' := snd (step (F := F) lib i m) in
      currentMode (globals (state_of m')) :: modes_visited rest m'
  end.

End Traces.

End Props.

(* ================================================================== *)
(** ** main.cpp, first sketch: the serial heartbeat *)

(** The file opens with a bring-up sketch that declares the radio but only
    prints to the serial port. *)
Module HelloSketch.

Section Hello.

Context {R F : Type}.

Definition setup : M (R := R) (F := F) unit :=
  bind (Serial_begin 115200) (fun _ =>
  bind (Serial_println "=== ESP32-S3 Started! ===") (fun _ =>
  bind (Serial_println "Serial monitor is working!") (fun _ =>
  Serial_println "Starting main loop..."))).

Definition loop : M (R := R) (F := F) unit :=
  bind (Serial_println "Hello world!") (fun _ => delay 1000).

(** [n] successive calls of [loop()]. *)
Fixpoint loops (n : nat) : M (R := R) (F := F) unit :=
  match n with
  | O => ret tt
  | S n' => bind loop (fun _ => loops n')
  end.

End Hello.

End HelloSketch.

(* ================================================================== *)
(** ** Further vocabulary *)

Module Coverage.

Import RotatoryEncoder Props.

(** The polling pattern with the release query: [update] then
    [wasReleased], per sample. *)
Fixpoint poll_released (e : t) (samples : list Sample) : t * list bool :=
  match samples with
  | [] => (e, [])
  | s :: rest =>
      let (b, e') := wasReleased (update e (fst s) (millis (snd s))) in
      let (e'', bs) := poll_released e' rest in
      (e'', b :: bs)
  end.

(** For each sample fed to [update], whether that call moved [currentState]
    to RELEASED from another state. *)
Fixpoint release_transitions (e : t) (samples : list Sample) : list bool :=
  match samples with
  | [] => []
  | s :: rest =>
      let e' := update e (fst s) (millis (snd s)) in
      (negb (SwitchState_eqb (_currentState e) RELEASED)
       && SwitchState_eqb (_currentState e') RELEASED)
        :: release_transitions e' rest
  end.

(** The event flag that the handler of a mode polls. *)
Definition mode_flag (m : Mode) : Flag :=
  match m with
  | RECEIVE => ReceivedFlag
  | TRANSMIT => TransmittedFlag
  end.

(** The flags read by the events of a trace, in order. *)
Fixpoint flag_reads {F : Type} (evs : list (Event F)) : list Flag :=
  match evs with
  | [] => []
  | EvFlagRead f _ :: rest => f :: flag_reads rest
  | _ :: rest => flag_reads rest
  end.

(** The log lines that announce the entry action of a mode. *)
Definition is_entry_event {F : Type} (ev : Event F) : bool :=
  match ev with
  | EvPrint s =>
      String.eqb s "[CC1101] Starting to listen ... "
      || String.eqb s "[CC1101] Sending first packet ... "
  | _ => false
  end.

(** A call of [loop()] entered in state [s] finds the sent-flag set in
    TRANSMIT mode, after the mode switch. *)
Definition finalises_transmission {R : Type} (s : State R) : bool :=
  Mode_eqb (if press_detected s then toggle (currentMode (globals s))
            else currentMode (globals s)) TRANSMIT
  && transmittedFlag (globals s).

(** Driver calls of the receive side and of the transmit side. *)
Definition is_receive_call {F : Type} (ev : Event F) : bool :=
  match ev with
  | EvRadio OpStartReceive _ | EvRadio OpReadData _ | EvGetRSSI | EvGetLQI => true
  | _ => false
  end.

Definition is_transmit_call {F : Type} (ev : Event F) : bool :=
  match ev with
  | EvRadio (OpStartTransmit _) _ | EvFinishTransmit => true
  | _ => false
  end.

End Coverage.

(* ================================================================== *)
(** ** Properties of the debounced switch monitor *)

Module SwitchMonitor.

Import RotatoryEncoder Props.

Lemma Level_eqb_eq (a b : Level) : Level_eqb a b = true <-> a = b.
Proof. destruct a, b; simpl; split; congruence. Qed.

Lemma SwitchState_eqb_eq (a b : SwitchState) : SwitchState_eqb a b = true <-> a = b.
Proof. destruct a, b; simpl; split; congruence. Qed.

Lemma ulong_modulus_pos : 0 < ulong_modulus.
Proof. reflexivity. Qed.

Lemma ulong_nonneg (z : Z) : 0 <= ulong z.
Proof. unfold ulong. apply Z.mod_pos_bound, ulong_modulus_pos. Qed.

Lemma ulong_sub_diag (now : Z) : ulong_sub now now = 0.
Proof. unfold ulong_sub. now rewrite Z.sub_diag. Qed.

(** The wrapped difference of two clock readings never exceeds the time
    that really passed. *)
Lemma ulong_sub_millis_le (t0 t : Z) :
  t0 <= t -> ulong_sub (millis t) (millis t0) <= t - t0.
Proof.
  intros Hle. unfold ulong_sub, millis, ulong.
  rewrite <- Zminus_mod.
  apply Z.mod_le; [lia | apply ulong_modulus_pos].
Qed.

(** *** What one call of [update] does to each field *)

Lemma update_lastReading e r now : _lastReading (update e r now) = r.
Proof.
  unfold update.
  repeat match goal with |- context [if ?c then _ else _] => destruct c end;
    reflexivity.
Qed.

Lemma update_lastDebounceTime e r now :
  _lastDebounceTime (update e r now)
  = if Level_eqb r (_lastReading e) then _lastDebounceTime e else now.
Proof.
  unfold update.
  destruct (Level_eqb r (_lastReading e)); simpl;
    repeat match goal with |- context [if ?c then _ else _] => destruct c end;
    reflexivity.
Qed.

Lemma update_config e r now :
  _switchPin (update e r now) = _switchPin e
  /\ _debounceDelay (update e r now) = _debounceDelay e
  /\ _holdTime (update e r now) = _holdTime e
  /\ _previousState (update e r now) = _previousState e.
Proof.
  unfold update.
  repeat match goal with |- context [if ?c then _ else _] => destruct c end;
    simpl; auto.
Qed.

Ltac split_update e r :=
  unfold update;
  let lastr := fresh "lastr" in
  let cur := fresh "cur" in
  destruct e as [? ? ? ? cur lastr ? ?];
  simpl; destruct r, lastr, cur; simpl;
  repeat match goal with
         | |- context [?a >? ?b] => destruct (a >? b) eqn:?; simpl
         end.

Lemma update_currentState e r now :
  _currentState (update e r now)
  = if ulong_sub now (_lastDebounceTime (update e r now)) >? _debounceDelay e
    then match r, _currentState e with
         | LOW, RELEASED => PRESSED
         | LOW, PRESSED =>
             if ulong_sub now (_pressStartTime e) >? _holdTime e
             then HELD else PRESSED
         | HIGH, PRESSED | HIGH, HELD => RELEASED
         | _, c => c
         end
    else _currentState e.
Proof. split_update e r; congruence. Qed.

Lemma update_pressStartTime e r now :
  _pressStartTime (update e r now)
  = if SwitchState_eqb (_currentState e) RELEASED
       && SwitchState_eqb (_currentState (update e r now)) PRESSED
    then now else _pressStartTime e.
Proof. split_update e r; congruence. Qed.

(** The state moves only while the debounce gate is open. *)
Lemma update_moves_gate e r now :
  _currentState (update e r now) <> _currentState e ->
  _debounceDelay e < ulong_sub now (_lastDebounceTime (update e r now)).
Proof.
  rewrite update_currentState.
  destruct (ulong_sub now _ >? _debounceDelay e) eqn:G.
  - intros _. apply Z.gtb_lt in G. exact G.
  - congruence.
Qed.

(** With a debounce delay that is a valid [unsigned long], a call on which
    the raw level changed leaves the state alone. *)
Lemma update_change_keeps_state e r now :
  0 <= _debounceDelay e -> r <> _lastReading e ->
  _currentState (update e r now) = _currentState e.
Proof.
  intros HD Hr.
  destruct (SwitchState_eqb (_currentState (update e r now)) (_currentState e)) eqn:E.
  - now apply SwitchState_eqb_eq.
  - assert (Hne : _currentState (update e r now) <> _currentState e).
    { intro H. apply SwitchState_eqb_eq in H. congruence. }
    apply update_moves_gate in Hne.
    rewrite update_lastDebounceTime in Hne.
    destruct (Level_eqb r (_lastReading e)) eqn:L.
    + apply Level_eqb_eq in L. contradiction.
    + rewrite ulong_sub_diag in Hne. lia.
Qed.

(** *** Runs *)

Lemma run_snoc e pre s :
  run e (pre ++ [s]) = update (run e pre) (fst s) (millis (snd s)).
Proof. unfold run. now rewrite fold_left_app. Qed.

Lemma ascending_snoc pre s :
  ascending (pre ++ [s]) ->
  ascending pre /\ Forall (fun x => snd x <= snd s) pre.
Proof.
  induction pre as [|a pre IH]; simpl.
  - auto.
  - intros [Hall Hasc]. destruct (IH Hasc) as [IH1 IH2].
    apply Forall_app in Hall. destruct Hall as [Hpre Hs].
    repeat split; auto.
    constructor; auto. now inversion Hs.
Qed.

Lemma last_reading_snoc pre s : last_reading (pre ++ [s]) = fst s.
Proof. unfold last_reading. now rewrite last_last. Qed.

Lemma stable_since_time_in pre r t0 :
  stable_since pre r t0 -> In (r, t0) pre.
Proof.
  intros (older & stable & -> & _ & _).
  apply in_or_app. right. now left.
Qed.

Lemma stable_since_extend pre r t0 t :
  stable_since pre r t0 -> stable_since (pre ++ [(r, t)]) r t0.
Proof.
  intros (older & stable & -> & Hst & Hold).
  exists older, (stable ++ [(r, t)]). repeat split; auto.
  - now rewrite <- app_assoc.
  - apply Forall_app. split; auto.
Qed.

Lemma stable_since_change pre r t :
  last_reading pre <> r -> stable_since (pre ++ [(r, t)]) r t.
Proof. intros H. exists pre, []. repeat split; auto. Qed.

(** What holds of the monitor after any run from construction: it remembers
    the last raw level, and its debounce timer is the time of the last
    raw-level change -- or there has been none and it is still RELEASED. *)
Lemma run_invariant pin D H pre :
  let e := run (new pin D H) pre in
  _lastReading e = last_reading pre
  /\ _debounceDelay e = ulong D
  /\ ((exists t0, stable_since pre (last_reading pre) t0
                  /\ _lastDebounceTime e = millis t0)
      \/ (_currentState e = RELEASED /\ last_reading pre = HIGH)).
Proof.
  induction pre as [|[r t] pre IH] using rev_ind; simpl.
  - repeat split; auto.
  - destruct IH as (HL & HD & Hcase).
    rewrite run_snoc, last_reading_snoc. simpl fst; simpl snd.
    set (e := run (new pin D H) pre) in *.
    split; [apply update_lastReading|].
    split; [now destruct (update_config e r (millis t)) as (_ & -> & _)|].
    rewrite update_lastDebounceTime.
    destruct (Level_eqb r (_lastReading e)) eqn:L.
    + apply Level_eqb_eq in L. rewrite HL in L. subst r.
      destruct Hcase as [(t0 & Hst & Ht0)|[Hrel Hhigh]].
      * left. exists t0. split; auto. now apply stable_since_extend.
      * right. split; auto.
        rewrite update_currentState, Hrel, Hhigh.
        now destruct (_ >? _).
    + left. exists t. split; auto.
      apply stable_since_change. rewrite <- HL. intro Heq.
      symmetry in Heq. apply Level_eqb_eq in Heq. congruence.
Qed.

(** C5. For every sequence of raw readings fed to [update] at times that do
    not go backwards, a call changes [currentState] only if the raw level
    has been the same since its last change, and that change lies more than
    (hence at least) the debounce window in the past; a call on which the
    raw level differs from the previous one resets the debounce timer to
    now, and the level read is stored as last observed on every call. *)
Theorem debounce_window_respected pin D H pre r t :
  ascending (pre ++ [(r, t)]) ->
  let e := run (new pin D H) pre in
  let e' := update e r (millis t) in
  (_currentState e' <> _currentState e ->
     exists t0, stable_since pre r t0 /\ _debounceDelay e < t - t0)
  /\ (r <> _lastReading e -> _lastDebounceTime e' = millis t)
  /\ _lastReading e' = r.
Proof.
  intros Hasc e e'.
  apply ascending_snoc in Hasc. destruct Hasc as [_ Hle].
  destruct (run_invariant pin D H pre) as (HL & HD & Hcase).
  fold e in HL, HD, Hcase.
  split; [|split].
  - intros Hmove.
    assert (Hsame : r = _lastReading e).
    { destruct (Level_eqb r (_lastReading e)) eqn:L.
      - now apply Level_eqb_eq.
      - exfalso. apply Hmove. apply update_change_keeps_state.
        + rewrite HD. apply ulong_nonneg.
        + intro Heq. apply Level_eqb_eq in Heq. congruence. }
    pose proof (update_moves_gate e r (millis t) Hmove) as Hgate.
    rewrite update_lastDebounceTime in Hgate.
    replace (Level_eqb r (_lastReading e)) with true in Hgate
      by (symmetry; now apply Level_eqb_eq).
    destruct Hcase as [(t0 & Hst & Ht0)|[Hrel Hhigh]].
    + rewrite <- HL, <- Hsame in Hst.
      exists t0. split; auto.
      rewrite Ht0 in Hgate.
      pose proof (stable_since_time_in _ _ _ Hst) as Hin.
      rewrite Forall_forall in Hle. specialize (Hle _ Hin). simpl in Hle.
      pose proof (ulong_sub_millis_le t0 t Hle). lia.
    + exfalso. apply Hmove. unfold e'.
      rewrite update_currentState, Hrel, Hsame, HL, Hhigh.
      now destruct (_ >? _).
  - intros Hr. unfold e'. rewrite update_lastDebounceTime.
    destruct (Level_eqb r (_lastReading e)) eqn:L; auto.
    apply Level_eqb_eq in L. contradiction.
  - apply update_lastReading.
Qed.

Lemma debounce_window_respected_witness :
  let pre := [(HIGH, 100); (LOW, 130); (HIGH, 140); (LOW, 200)] in
  let e := run (new_default 4) pre in
  let e' := update e LOW (millis 251) in
  _currentState e = RELEASED /\ _currentState e' = PRESSED
  /\ exists t0, stable_since pre LOW t0 /\ _debounceDelay e < 251 - t0.
Proof.
  split; [reflexivity|]. split; [reflexivity|].
  apply (debounce_window_respected 4 50 1000
           [(HIGH, 100); (LOW, 130); (HIGH, 140); (LOW, 200)] LOW 251).
  - simpl. repeat split; repeat constructor; simpl; lia.
  - discriminate.
Defined.

(** *** Hold escalation *)

(** C6, as stated, fails: the press recorded at 51 ms is followed by a raw
    HIGH reading at 500 ms, well before the hold threshold of 1000 ms has
    elapsed, so the raw input was not continuously LOW since the press
    start; the glitch is shorter than the debounce window, the state stays
    PRESSED, and the call at 1060 ms escalates it to HELD. *)
Lemma hold_after_raw_glitch :
  let pre := [(LOW, 0); (LOW, 51); (HIGH, 500); (LOW, 501)] in
  let e := run (new_default 4) pre in
  _currentState (run (new_default 4) [(LOW, 0)]) = RELEASED
  /\ _currentState (run (new_default 4) [(LOW, 0); (LOW, 51)]) = PRESSED
  /\ _pressStartTime e = 51
  /\ _holdTime e = 1000
  /\ _currentState e = PRESSED
  /\ ~ Forall (fun s => 51 <= snd s -> fst s = LOW) pre
  /\ _currentState (update e LOW (millis 1060)) = HELD.
Proof.
  repeat split; try reflexivity.
  intro H. rewrite Forall_forall in H.
  assert (Hin : In (HIGH, 500) [(LOW, 0); (LOW, 51); (HIGH, 500); (LOW, 501)])
    by (simpl; auto).
  specialize (H _ Hin). simpl in H.
  assert (HIGH = LOW) by (apply H; lia). discriminate.
Qed.

(** C6, amended.  A call of [update] moves PRESSED to HELD if and only if
    the level read is LOW, the debounce timer (reset by every raw-level
    change) is older than the debounce window, and more than the hold
    threshold has elapsed since the recorded press start.  HELD is entered
    from PRESSED only; from RELEASED the state can only stay or become
    PRESSED, which records a new press start; and there is no direct
    transition from HELD to PRESSED.  A call made while the debounce timer
    is not older than the window leaves the state as it is, and so does
    every call on which the raw level changed: a raw HIGH shorter than the
    debounce window does not cancel the press. *)
Theorem hold_escalation e r now :
  (_currentState e = PRESSED ->
     (_currentState (update e r now) = HELD <->
        r = LOW
        /\ _debounceDelay e < ulong_sub now (_lastDebounceTime (update e r now))
        /\ _holdTime e < ulong_sub now (_pressStartTime e)))
  /\ (_currentState e = RELEASED -> _currentState (update e r now) <> HELD)
  /\ (_currentState e = RELEASED -> _currentState (update e r now) = PRESSED ->
        _pressStartTime (update e r now) = now)
  /\ (_currentState e = HELD -> _currentState (update e r now) <> PRESSED)
  /\ (ulong_sub now (_lastDebounceTime (update e r now)) <= _debounceDelay e ->
        _currentState (update e r now) = _currentState e)
  /\ (0 <= _debounceDelay e -> r <> _lastReading e ->
        _currentState (update e r now) = _currentState e).
Proof.
  assert (Hcalls :
    (_currentState e = PRESSED ->
       (_currentState (update e r now) = HELD <->
          r = LOW
          /\ _debounceDelay e
             < ulong_sub now (_lastDebounceTime (update e r now))
          /\ _holdTime e < ulong_sub now (_pressStartTime e)))
    /\ (_currentState e = RELEASED -> _currentState (update e r now) <> HELD)
    /\ (_currentState e = RELEASED ->
        _currentState (update e r now) = PRESSED ->
        _pressStartTime (update e r now) = now)
    /\ (_currentState e = HELD -> _currentState (update e r now) <> PRESSED)).
  { rewrite update_pressStartTime, update_currentState.
    destruct (Z.gtb_spec (ulong_sub now (_lastDebounceTime (update e r now)))
                (_debounceDelay e)) as [G|G];
      destruct (Z.gtb_spec (ulong_sub now (_pressStartTime e)) (_holdTime e))
        as [G'|G'];
      destruct (_currentState e), r; simpl;
      repeat split; intros;
      repeat match goal with H : _ /\ _ |- _ => destruct H end;
      try congruence; try lia. }
  destruct Hcalls as (H1 & H2 & H3 & H4).
  split; [exact H1|]. split; [exact H2|]. split; [exact H3|].
  split; [exact H4|]. split.
  - intros Hclosed. rewrite update_currentState.
    destruct (Z.gtb_spec (ulong_sub now (_lastDebounceTime (update e r now)))
                (_debounceDelay e)) as [G|G]; [lia | reflexivity].
  - intros HD Hr. now apply update_change_keeps_state.
Qed.

Lemma hold_escalation_witness :
  let e := run (new_default 4) [(LOW, 0); (LOW, 51)] in
  _currentState e = PRESSED
  /\ _currentState (update e LOW (millis 1052)) = HELD
  /\ _holdTime e < ulong_sub (millis 1052) (_pressStartTime e).
Proof.
  split; [reflexivity|].
  assert (Hp : _currentState (run (new_default 4) [(LOW, 0); (LOW, 51)]) = PRESSED)
    by reflexivity.
  destruct (hold_escalation (run (new_default 4) [(LOW, 0); (LOW, 51)])
              LOW (millis 1052)) as (Hiff & _).
  split; [reflexivity|].
  apply (proj1 (Hiff Hp)). reflexivity.
Defined.

(** *** Edge queries *)

Lemma exec_app e a b :
  exec e (a ++ b)
  = (fst (exec (fst (exec e a)) b),
     snd (exec e a) ++ snd (exec (fst (exec e a)) b)).
Proof.
  revert e. induction a as [|c a IH]; intros e; simpl.
  - now destruct (exec e b).
  - destruct c as [r t|].
    + apply IH.
    + destruct (wasPressed e) as [p e1]. rewrite IH.
      destruct (exec e1 a) as [e2 bs]. simpl.
      now destruct (exec e2 b).
Qed.

Lemma wasPressed_true_iff e :
  fst (wasPressed e) = true
  <-> _currentState e = PRESSED /\ _previousState e <> PRESSED.
Proof.
  unfold wasPressed.
  destruct (_currentState e), (_previousState e); simpl;
    split; intros H; try discriminate;
    try (destruct H; congruence); split; congruence.
Qed.

Lemma wasPressed_state e :
  _previousState (snd (wasPressed e)) = _currentState e
  /\ set_previousState (_currentState e) e = snd (wasPressed e).
Proof.
  unfold wasPressed.
  destruct (_currentState e) eqn:C, (_previousState e); simpl; auto.
Qed.

Lemma wasReleased_state e :
  _previousState (snd (wasReleased e)) = _currentState e
  /\ set_previousState (_currentState e) e = snd (wasReleased e).
Proof.
  unfold wasReleased.
  destruct (_currentState e) eqn:C, (_previousState e); simpl; auto.
Qed.

Lemma run_previousState e samples :
  _previousState (run e samples) = _previousState e.
Proof.
  unfold run. revert e.
  induction samples as [|s samples IH]; intros e; simpl; auto.
  rewrite IH.
  now destruct (update_config e (fst s) (millis (snd s))) as (_ & _ & _ & ->).
Qed.

Lemma update_set_previousState v e r now :
  update (set_previousState v e) r now = set_previousState v (update e r now).
Proof. split_update e r; reflexivity. Qed.

Lemma press_transitions_previous v e samples :
  press_transitions (set_previousState v e) samples = press_transitions e samples.
Proof.
  revert e. induction samples as [|s samples IH]; intros e; simpl; auto.
  rewrite update_set_previousState, IH. reflexivity.
Qed.

(** A call of [update] enters PRESSED from RELEASED only. *)
Lemma update_enters_pressed e r now :
  _currentState (update e r now) = PRESSED -> _currentState e <> PRESSED ->
  _currentState e = RELEASED.
Proof.
  rewrite update_currentState.
  destruct (_ >? _), r, (_currentState e); congruence.
Qed.

Lemma poll_reports_transitions e samples :
  _previousState e = _currentState e ->
  snd (poll e samples) = press_transitions e samples.
Proof.
  revert e. induction samples as [|s samples IH]; intros e Hprev; simpl; auto.
  set (u := update e (fst s) (millis (snd s))).
  destruct (wasPressed u) as [b e'] eqn:W.
  assert (Hb : b = fst (wasPressed u)) by now rewrite W.
  assert (He' : e' = snd (wasPressed u)) by now rewrite W.
  destruct (wasPressed_state u) as [Hp Hs]. rewrite <- He' in Hp, Hs.
  specialize (IH e'). destruct (poll e' samples) as [e'' bs]. simpl in *.
  rewrite IH by (rewrite Hp; subst e'; now rewrite <- Hs).
  rewrite <- Hs, press_transitions_previous. f_equal.
  assert (Hpu : _previousState u = _currentState e).
  { unfold u. destruct (update_config e (fst s) (millis (snd s)))
      as (_ & _ & _ & ->). exact Hprev. }
  destruct b.
  - symmetry in Hb. apply wasPressed_true_iff in Hb. destruct Hb as [Hc Hn].
    rewrite Hpu in Hn.
    rewrite (update_enters_pressed e _ _ Hc Hn). fold u. now rewrite Hc.
  - destruct (SwitchState_eqb (_currentState e) RELEASED) eqn:E1; auto.
    destruct (SwitchState_eqb (_currentState u) PRESSED) eqn:E2; auto.
    apply SwitchState_eqb_eq in E1, E2.
    assert (fst (wasPressed u) = true) as Ht.
    { apply wasPressed_true_iff. split; auto. rewrite Hpu, E1. discriminate. }
    congruence.
Qed.

(** C7, as stated, fails: [currentState] moves from RELEASED to PRESSED at
    51 ms and back to RELEASED at 111 ms; [wasPressed], first called after
    that, returns false on every call, so no call reports the transition. *)
Lemma press_never_reported :
  let e0 := new_default 4 in
  let cs := [CallUpdate LOW 0; CallUpdate LOW 51;
             CallUpdate HIGH 60; CallUpdate HIGH 111;
             CallWasPressed; CallWasPressed] in
  _currentState (fst (exec e0 [CallUpdate LOW 0])) = RELEASED
  /\ _currentState (fst (exec e0 [CallUpdate LOW 0; CallUpdate LOW 51])) = PRESSED
  /\ snd (exec e0 cs) = [false; false].
Proof. repeat split. Qed.

(** C7, amended.  [wasPressed] returns true exactly when [currentState] is
    PRESSED and the previously recorded state is not; every call of
    [wasPressed] and of [wasReleased] overwrites the previously recorded
    state with the current one, whatever it returns; so a call that directly
    repeats a call returns false.  In every sequence of calls, a
    [wasPressed] that comes after an earlier [wasPressed] and any number of
    [update] calls returns true exactly when the state is PRESSED now and was
    not PRESSED at the earlier query -- a transition undone or escalated
    before the next query is not reported.  When [wasPressed] is called
    after every [update], as the controller does, it returns true on exactly
    the calls that follow an [update] which moved RELEASED to PRESSED. *)
Theorem wasPressed_edge_detection :
  (forall e, fst (wasPressed e) = true
             <-> _currentState e = PRESSED /\ _previousState e <> PRESSED)
  /\ (forall e, _previousState (snd (wasPressed e)) = _currentState e
                /\ _previousState (snd (wasReleased e)) = _currentState e)
  /\ (forall e, fst (wasPressed (snd (wasPressed e))) = false)
  /\ (forall e cs ups,
        let e1 := fst (exec e (cs ++ [CallWasPressed])) in
        let e2 := run e1 ups in
        fst (wasPressed e2) = true
        <-> _currentState e2 = PRESSED
            /\ _currentState (fst (exec e cs)) <> PRESSED)
  /\ (forall pin D H samples,
        snd (poll (new pin D H) samples)
        = press_transitions (new pin D H) samples).
Proof.
  split; [exact wasPressed_true_iff|].
  split; [intro e; split; [apply wasPressed_state | apply wasReleased_state]|].
  split.
  { intro e. destruct (fst (wasPressed (snd (wasPressed e)))) eqn:E; auto.
    apply wasPressed_true_iff in E. destruct E as [Hc Hp].
    destruct (wasPressed_state e) as [Hprev Hset].
    rewrite <- Hset in Hc. simpl in Hc. congruence. }
  split.
  { intros e cs ups e1 e2.
    rewrite wasPressed_true_iff. unfold e2.
    rewrite run_previousState. unfold e1.
    rewrite exec_app. simpl.
    destruct (wasPressed (fst (exec e cs))) as [b e'] eqn:W. simpl.
    replace e' with (snd (wasPressed (fst (exec e cs)))) by now rewrite W.
    destruct (wasPressed_state (fst (exec e cs))) as [-> _]. tauto. }
  intros. apply poll_reports_transitions. reflexivity.
Qed.

End SwitchMonitor.

(* ================================================================== *)
(** ** Properties of the link mode controller *)

Module LinkController.

Import RotatoryEncoder Props SwitchMonitor.

(** Symbolic execution of the sketch: unfold the monad, then split on what
    the driver returns and on the conditions the code tests. *)
Ltac sketch_unfold :=
  unfold loop, handleRotatoryEncoder, handleReceivedPacket, handleSentPacket,
    setup, mode_switch, dispatch, rotatoryEncoder_begin, rotatoryEncoder_update,
    rotatoryEncoder_wasPressed, radio_begin, radio_startReceive,
    radio_startTransmit, radio_readData, radio_getRSSI, radio_getLQI,
    radio_finishTransmit, radio_setPacketReceivedAction,
    radio_setPacketSentAction, radio_status, read_flag, write_flag,
    Serial_begin, Serial_print, Serial_println, Serial_println_int,
    Serial_print_float, delay, halt, emit, modify, get, bind, ret.

Ltac sketch_step :=
  match goal with
  | |- context [wasPressed ?e] => destruct (wasPressed e) as [? ?] eqn:?
  | |- context [drv_begin ?l ?r] => destruct (drv_begin l r) as [? ?] eqn:?
  | |- context [drv_startReceive ?l ?r] =>
      destruct (drv_startReceive l r) as [? ?] eqn:?
  | |- context [drv_readData ?l ?r] =>
      destruct (drv_readData l r) as [[? ?] ?] eqn:?
  | |- context [drv_getRSSI ?l ?r] => destruct (drv_getRSSI l r) as [? ?] eqn:?
  | |- context [drv_getLQI ?l ?r] => destruct (drv_getLQI l r) as [? ?] eqn:?
  | |- context [drv_startTransmit ?l ?p ?r] =>
      destruct (drv_startTransmit l p r) as [? ?] eqn:?
  | |- context [if ?c then _ else _] => destruct c eqn:?
  end; simpl in *.

Ltac sketch_tidy :=
  repeat match goal with
         | H : (_, _) = (_, _) |- _ => inversion H; clear H; subst
         end;
  repeat match goal with
         | H : ?c = true |- context [?c] => rewrite H
         | H : ?c = false |- context [?c] => rewrite H
         end;
  simpl.

Ltac sketch_run := sketch_unfold; simpl; repeat sketch_step; sketch_tidy.

Section Controller.

Context {R F : Type}.
Variable lib : RadioLib R F.

(** [handleRotatoryEncoder] is: update the monitor, query the press edge,
    switch the mode, dispatch. *)
Lemma handleRotatoryEncoder_split (s : State R) :
  handleRotatoryEncoder lib s
  = bind rotatoryEncoder_update (fun _ =>
    bind rotatoryEncoder_wasPressed (fun pressed =>
    bind (mode_switch pressed) (fun _ => dispatch lib))) s.
Proof. reflexivity. Qed.

(** *** What a call of [loop()] does to the monitor, the mode and the clock *)

Lemma loop_effect (s : State R) :
  let s' := result_state (snd (loop lib s)) in
  rotatoryEncoder (globals s')
  = snd (wasPressed (update (rotatoryEncoder (globals s))
                            (switchLevel s) (millis (clock s))))
  /\ currentMode (globals s')
     = (if press_detected s then toggle (currentMode (globals s))
        else currentMode (globals s))
  /\ modeChanged (globals s') = press_detected s
  /\ clock s <= clock s'.
Proof.
  unfold press_detected. sketch_run;
    repeat split; try reflexivity; lia.
Qed.

(** A call of [loop()] is caught in a halt loop exactly when it detects a
    press edge that switches to RECEIVE and the [startReceive] of the mode
    entry fails. *)
Lemma loop_halts_iff (s : State R) :
  returned (snd (loop lib s))
  = negb (press_detected s
          && Mode_eqb (currentMode (globals s)) TRANSMIT
          && negb (fst (drv_startReceive lib (radio s)) =? RADIOLIB_ERR_NONE lib)).
Proof.
  unfold press_detected. sketch_run;
    try reflexivity;
    destruct (currentMode (globals s)); simpl in *; try discriminate;
    sketch_tidy; reflexivity.
Qed.

(** *** Interrupts and the surroundings *)

Lemma set_globals_raise_none (s : State R) :
  set_globals (raise_flags false false (globals s)) s = s.
Proof.
  destruct s as [g ? ? ? ? ?]. destruct g. unfold raise_flags. simpl.
  now rewrite !orb_false_r.
Qed.

Lemma raise_flags_twice a b a' b' g :
  raise_flags a' b' (raise_flags a b g) = raise_flags (a || a') (b || b') g.
Proof.
  destruct g. unfold raise_flags. simpl. now rewrite !orb_assoc.
Qed.

Lemma interrupt_effect (i : Irq) (s : State R) :
  exists a b (evs : list (Event F)),
    interrupt i s
    = (evs, Return tt (set_globals (raise_flags a b (globals s)) s))
    /\ writes_only true evs = true
    /\ no_radio_call evs = true.
Proof.
  unfold interrupt.
  destruct i; [destruct (packetReceivedAction s) as [[|]|]
              | destruct (packetSentAction s) as [[|]|]];
    unfold call_back, setReceiveFlag, setSentFlag, write_flag; simpl.
  all: first
    [ exists true, false; eexists; split;
      [ destruct s as [g ? ? ? ? ?]; destruct g; unfold raise_flags; simpl;
        now rewrite ?orb_false_r, ?orb_true_r | split; reflexivity ]
    | exists false, true; eexists; split;
      [ destruct s as [g ? ? ? ? ?]; destruct g; unfold raise_flags; simpl;
        now rewrite ?orb_false_r, ?orb_true_r | split; reflexivity ]
    | exists false, false, []; split;
      [ now rewrite set_globals_raise_none | split; reflexivity ] ].
Qed.

Lemma writes_only_app v (a b : list (Event F)) :
  writes_only v (a ++ b) = writes_only v a && writes_only v b.
Proof.
  induction a as [|ev a IH]; simpl; auto.
  destruct ev; auto. rewrite IH. now rewrite andb_assoc.
Qed.

Lemma interrupts_effect (l : list Irq) (s : State R) :
  exists a b (evs : list (Event F)),
    interrupts l s
    = (evs, Return tt (set_globals (raise_flags a b (globals s)) s))
    /\ writes_only true evs = true
    /\ no_radio_call evs = true.
Proof.
  revert s. induction l as [|i l IH]; intros s.
  - exists false, false, []. simpl. unfold ret.
    now rewrite set_globals_raise_none.
  - simpl. unfold bind.
    destruct (interrupt_effect i s) as (a & b & evs & -> & Hw & Hn).
    set (s1 := set_globals (raise_flags a b (globals s)) s).
    destruct (IH s1) as (a' & b' & evs' & -> & Hw' & Hn').
    exists (a || a'), (b || b'), (evs ++ evs').
    unfold no_radio_call in *.
    rewrite writes_only_app, forallb_app, Hw, Hw', Hn, Hn'.
    split; [|split; reflexivity].
    f_equal. f_equal. unfold s1. simpl.
    now rewrite raise_flags_twice.
Qed.

(** A step of the running program: interrupts raise flags, time passes, the
    switch takes its level, and [loop()] runs. *)
Lemma step_running (i : Input) (s : State R) :
  exists a b evs,
    let s1 := arrive i (set_globals (raise_flags a b (globals s)) s) in
    step lib i (Running s)
    = (evs ++ fst (loop lib s1), machine_of (snd (loop lib s1)))
    /\ writes_only true evs = true
    /\ press_detected s1 = press_detected (arrive i s)
    /\ currentMode (globals s1) = currentMode (globals s)
    /\ radio s1 = radio s
    /\ clock s1 = clock s + Z.of_N (in_elapsed i)
    /\ rotatoryEncoder (globals s1) = rotatoryEncoder (globals s)
    /\ switchLevel s1 = in_level i.
Proof.
  destruct (interrupts_effect (in_irqs i) s) as (a & b & evs & Hi & Hw & _).
  exists a, b, evs. simpl.
  split; [|repeat split; auto].
  unfold step, surroundings, bind. rewrite Hi.
  unfold arrive. simpl.
  destruct (loop lib _) as [evs' res]. simpl. now rewrite app_nil_r.
Qed.

(** A step of the halted program is a turn of the halt loop: it leaves the
    globals to the interrupts and calls nothing on the radio. *)
Lemma step_halted (i : Input) (s : State R) :
  exists a b (evs : list (Event F)),
    step lib i (Halted s)
    = (evs ++ [EvDelay 10],
       Halted (set_clock (clock s + Z.of_N (in_elapsed i) + 10)
                 (arrive i (set_globals (raise_flags a b (globals s)) s))))
    /\ writes_only true evs = true
    /\ no_radio_call evs = true.
Proof.
  destruct (interrupts_effect (in_irqs i) s) as (a & b & evs & Hi & Hw & Hn).
  exists a, b, evs. split; [|auto].
  unfold step, surroundings, bind. rewrite Hi. simpl.
  now rewrite app_nil_r.
Qed.


(** *** Mode toggling *)








Lemma state_of_machine_of (res : Result R unit) :
  state_of (machine_of res) = result_state res.
Proof. now destruct res. Qed.







(** *** Halting *)

Lemma boot_halts_iff (r : R) :
  is_halted (snd (boot lib r))
  = negb (fst (drv_begin lib r) =? RADIOLIB_ERR_NONE lib)
    || negb (fst (drv_startReceive lib (snd (drv_begin lib r)))
             =? RADIOLIB_ERR_NONE lib).
Proof. unfold boot, power_on. sketch_run; reflexivity. Qed.

(** When [setup()] halts, the failing call is its last driver call, and the
    failure log is all that follows it. *)
Lemma boot_halt_trace (r : R) :
  is_halted (snd (boot lib r)) = true ->
  exists pre op c,
    fst (boot lib r)
    = pre ++ [EvRadio op c; EvPrint "failed, code "; EvPrintlnInt c]
    /\ (c =? RADIOLIB_ERR_NONE lib) = false
    /\ (op = OpBegin \/ op = OpStartReceive).
Proof.
  unfold boot, power_on. sketch_run; try discriminate; intros _.
  - eexists (_ :: _ :: _ :: _ :: _ :: _ :: _ :: _ :: _ :: []), _, _.
    split; [reflexivity|]. auto.
  - eexists (_ :: _ :: _ :: _ :: []), _, _.
    split; [reflexivity|]. auto.
Qed.

Lemma loop_halt_trace (s : State R) :
  returned (snd (loop lib s)) = false ->
  exists pre c,
    fst (loop lib s)
    = pre ++ [EvRadio OpStartReceive c; EvPrint "Failed, code "; EvPrintlnInt c]
    /\ (c =? RADIOLIB_ERR_NONE lib) = false.
Proof.
  sketch_run; try discriminate; intros _.
  eexists (_ :: _ :: _ :: []), _. split; [reflexivity|]. auto.
Qed.

Lemma step_halts_iff (i : Input) (s : State R) :
  is_halted (snd (step lib i (Running s)))
  = press_detected (arrive i s)
    && Mode_eqb (currentMode (globals s)) TRANSMIT
    && negb (fst (drv_startReceive lib (radio s)) =? RADIOLIB_ERR_NONE lib).
Proof.
  destruct (step_running i s)
    as (a & b & evs & Hstep & _ & Hp & Hm & Hr & _).
  cbv zeta in *. rewrite Hstep. simpl snd.
  set (s1 := arrive i (set_globals (raise_flags a b (globals s)) s)) in *.
  pose proof (loop_halts_iff s1) as H. rewrite Hp, Hm, Hr in H.
  destruct (snd (loop lib s1)); simpl in *.
  - symmetry. now apply negb_true_iff.
  - symmetry. now apply negb_false_iff.
Qed.

Lemma step_halt_trace (i : Input) (s : State R) :
  is_halted (snd (step lib i (Running s))) = true ->
  exists pre c,
    fst (step lib i (Running s))
    = pre ++ [EvRadio OpStartReceive c; EvPrint "Failed, code "; EvPrintlnInt c]
    /\ (c =? RADIOLIB_ERR_NONE lib) = false.
Proof.
  destruct (step_running i s) as (a & b & evs & Hstep & _).
  cbv zeta in *. rewrite Hstep. simpl.
  set (s1 := arrive i (set_globals (raise_flags a b (globals s)) s)) in *.
  intros Hh.
  destruct (loop_halt_trace s1) as (pre & c & Hl & Hc).
  { destruct (snd (loop lib s1)); simpl in *; congruence. }
  exists (evs ++ pre), c. rewrite Hl, app_assoc. auto.
Qed.

Lemma steps_halted (inputs : list Input) (s : State R) :
  is_halted (snd (steps lib inputs (Halted s))) = true
  /\ no_radio_call (fst (steps lib inputs (Halted s))) = true.
Proof.
  revert s. induction inputs as [|i inputs IH]; intros s; [simpl; auto|].
  cbn [steps].
  destruct (step_halted i s) as (a & b & evs & -> & _ & Hn).
  match goal with |- context [steps lib inputs (Halted ?s')] =>
    destruct (IH s') as [Hh Hr]; destruct (steps lib inputs (Halted s'))
  end.
  simpl in *. split; auto.
  unfold no_radio_call in *. rewrite !forallb_app, Hn, Hr. reflexivity.
Qed.

(** C4. [setup()] ends in the halt loop exactly when [begin] or the first
    [startReceive] returns a failure code, and a call of [loop()] exactly
    when it switches to RECEIVE and the [startReceive] of the mode entry
    returns one -- no other failure halts.  When the program halts, the
    failing call is the last driver call it made, followed by the failure
    log only; and from the halt loop the program never comes back: every
    later step leaves it halted and calls nothing on the radio. *)
Theorem fatal_failures_halt_for_ever :
  (forall r,
      is_halted (snd (boot lib r))
      = negb (fst (drv_begin lib r) =? RADIOLIB_ERR_NONE lib)
        || negb (fst (drv_startReceive lib (snd (drv_begin lib r)))
                 =? RADIOLIB_ERR_NONE lib))
  /\ (forall i s,
        is_halted (snd (step lib i (Running s)))
        = press_detected (arrive i s)
          && Mode_eqb (currentMode (globals s)) TRANSMIT
          && negb (fst (drv_startReceive lib (radio s))
                   =? RADIOLIB_ERR_NONE lib))
  /\ (forall r,
        is_halted (snd (boot lib r)) = true ->
        exists pre op c,
          fst (boot lib r)
          = pre ++ [EvRadio op c; EvPrint "failed, code "; EvPrintlnInt c]
          /\ (c =? RADIOLIB_ERR_NONE lib) = false
          /\ (op = OpBegin \/ op = OpStartReceive))
  /\ (forall i s,
        is_halted (snd (step lib i (Running s))) = true ->
        exists pre c,
          fst (step lib i (Running s))
          = pre ++ [EvRadio OpStartReceive c;
                    EvPrint "Failed, code "; EvPrintlnInt c]
          /\ (c =? RADIOLIB_ERR_NONE lib) = false)
  /\ (forall inputs s,
        is_halted (snd (steps lib inputs (Halted s))) = true
        /\ no_radio_call (fst (steps lib inputs (Halted s))) = true)
  /\ (forall i s,
        exists flag_writes,
          fst (step lib i (Halted s)) = flag_writes ++ [EvDelay 10]
          /\ no_radio_call flag_writes = true).
Proof.
  split; [exact boot_halts_iff|].
  split; [exact step_halts_iff|].
  split; [exact boot_halt_trace|].
  split; [exact step_halt_trace|].
  split; [exact steps_halted|].
  intros i s. destruct (step_halted i s) as (a & b & evs & -> & _ & Hn).
  exists evs. auto.
Qed.

(** *** The event flags *)




(** *** Failure reports *)

Lemma boot_failures_logged (r : R) :
  failures_logged_before_rearm lib false (fst (boot lib r)) = true.
Proof.
  unfold boot, power_on. sketch_run; rewrite ?Z.eqb_refl; reflexivity.
Qed.

Lemma loop_failures_logged (s : State R) :
  failures_logged_before_rearm lib false (fst (loop lib s)) = true.
Proof.
  sketch_run; rewrite ?Z.eqb_refl; sketch_tidy; rewrite ?orb_true_r;
    reflexivity.
Qed.

(** The two halting paths of [setup()], event by event. *)
Lemma setup_begin_failure_trace (r : R) :
  (fst (drv_begin lib r) =? RADIOLIB_ERR_NONE lib) = false ->
  fst (boot lib r)
  = [EvSerialBegin 115200; EvPinMode SWITCH_PIN;
     EvSpiBegin SCK_PIN MISO_PIN MOSI_PIN (-1);
     EvPrint "[CC1101] Initializing ... ";
     EvRadio OpBegin (fst (drv_begin lib r));
     EvPrint "failed, code "; EvPrintlnInt (fst (drv_begin lib r))].
Proof.
  unfold boot, power_on. sketch_unfold. simpl.
  destruct (drv_begin lib r) as [c1 r1]. simpl. intros ->. reflexivity.
Qed.

Lemma setup_listen_failure_trace (r : R) :
  (fst (drv_begin lib r) =? RADIOLIB_ERR_NONE lib) = true ->
  (fst (drv_startReceive lib (snd (drv_begin lib r)))
   =? RADIOLIB_ERR_NONE lib) = false ->
  fst (boot lib r)
  = [EvSerialBegin 115200; EvPinMode SWITCH_PIN;
     EvSpiBegin SCK_PIN MISO_PIN MOSI_PIN (-1);
     EvPrint "[CC1101] Initializing ... ";
     EvRadio OpBegin (fst (drv_begin lib r)); EvPrintln "success!";
     EvSetPacketReceivedAction SetReceiveFlag;
     EvSetPacketSentAction SetSentFlag;
     EvPrint "[CC1101] Starting to listen ... ";
     EvRadio OpStartReceive
       (fst (drv_startReceive lib (snd (drv_begin lib r))));
     EvPrint "failed, code ";
     EvPrintlnInt (fst (drv_startReceive lib (snd (drv_begin lib r))))].
Proof.
  unfold boot, power_on. sketch_unfold. simpl.
  destruct (drv_begin lib r) as [c1 r1]. simpl. intros ->. simpl.
  destruct (drv_startReceive lib r1) as [c2 r2]. simpl. intros ->.
  reflexivity.
Qed.

(** The halting path of the RECEIVE mode entry, event by event. *)
Lemma entry_listen_failure_trace (s : State R) :
  press_detected s = true ->
  currentMode (globals s) = TRANSMIT ->
  (fst (drv_startReceive lib (radio s)) =? RADIOLIB_ERR_NONE lib) = false ->
  fst (loop lib s)
  = [EvPrint "Switched to "; EvPrintln "RECEIVE mode";
     EvPrint "[CC1101] Starting to listen ... ";
     EvRadio OpStartReceive (fst (drv_startReceive lib (radio s)));
     EvPrint "Failed, code ";
     EvPrintlnInt (fst (drv_startReceive lib (radio s)))].
Proof.
  unfold press_detected. intros Hp Hm.
  sketch_unfold. simpl.
  destruct (wasPressed _) as [p e'] eqn:W. simpl in Hp. subst p. simpl.
  rewrite Hm. simpl.
  destruct (drv_startReceive lib (radio s)) as [c r]. simpl. intros ->.
  reflexivity.
Qed.

(** A failing [readData] in steady state, event by event. *)
Lemma read_failure_trace (s : State R) :
  press_detected s = false ->
  currentMode (globals s) = RECEIVE ->
  receivedFlag (globals s) = true ->
  (fst (fst (drv_readData lib (radio s))) =? RADIOLIB_ERR_NONE lib) = false ->
  let c := fst (fst (drv_readData lib (radio s))) in
  exists c2,
    fst (loop lib s)
    = [EvFlagRead ReceivedFlag true; EvFlagWrite ReceivedFlag false;
       EvRadio OpReadData c]
      ++ (if c =? RADIOLIB_ERR_CRC_MISMATCH lib
          then [EvPrintln "CRC error!"]
          else [EvPrint "Failed, code "; EvPrintlnInt c])
      ++ [EvRadio OpStartReceive c2].
Proof.
  unfold press_detected. intros Hp Hm Hf. cbv zeta.
  sketch_unfold. simpl.
  destruct (wasPressed _) as [p e'] eqn:W. simpl in Hp. subst p. simpl.
  rewrite Hm. simpl. rewrite Hf. simpl.
  destruct (drv_readData lib (radio s)) as [[c str] r]. simpl. intros ->.
  simpl. repeat sketch_step; eexists; reflexivity.
Qed.

(** Whenever a call of [loop()] reads a packet, its last action is the
    re-arm [startReceive], and the call returns. *)
Lemma read_is_followed_by_rearm (s : State R) (c' : Z) :
  In (EvRadio OpReadData c') (fst (loop lib s)) ->
  exists c,
    last (fst (loop lib s)) (EvDelay 0) = EvRadio OpStartReceive c
    /\ returned (snd (loop lib s)) = true.
Proof.
  sketch_run; intros Hin;
    try (exfalso; simpl in Hin;
         repeat match goal with
                | H : _ \/ _ |- _ => destruct H as [H|H]
                end; first [discriminate | contradiction]);
    eexists; split; reflexivity.
Qed.

(** In steady state, a set received-flag makes [loop()] end with the re-arm
    [startReceive], whatever status that call returns. *)
Lemma rearm_status_discarded (s : State R) :
  press_detected s = false ->
  currentMode (globals s) = RECEIVE ->
  receivedFlag (globals s) = true ->
  exists c,
    last (fst (loop lib s)) (EvDelay 0) = EvRadio OpStartReceive c
    /\ returned (snd (loop lib s)) = true.
Proof.
  unfold press_detected. intros Hp Hm Hf.
  sketch_unfold. simpl.
  destruct (wasPressed _) as [p e'] eqn:W. simpl in Hp. subst p. simpl.
  rewrite Hm. simpl. rewrite Hf. simpl.
  repeat sketch_step; eexists; split; reflexivity.
Qed.

(** C3, as stated, fails: a packet is received and read successfully, the
    re-arm [startReceive] returns the failure code -2, and the call of
    [loop()] ends there -- no log line follows the failing call. *)
Lemma rearm_failure_not_logged :
  let m := snd (boot scripted [0; 0; 0; -2]) in
  let evs := fst (step scripted (mkInput [PacketReceived] 10 HIGH) m) in
  evs = [EvFlagWrite ReceivedFlag true;
         EvFlagRead ReceivedFlag true; EvFlagWrite ReceivedFlag false;
         EvRadio OpReadData 0;
         EvPrintln "[CC1101] Received packet!";
         EvPrint ("[CC1101] Data:" ++ tab ++ tab); EvPrintln "ping";
         EvPrint ("[CC1101] RSSI:" ++ tab ++ tab); EvGetRSSI;
         EvPrintFloat (-60); EvPrintln " dBm";
         EvPrint ("[CC1101] LQI:" ++ tab ++ tab); EvGetLQI; EvPrintlnInt 12;
         EvRadio OpStartReceive (-2)]
  /\ every_failure_logged scripted evs = false
  /\ is_halted (snd (step scripted (mkInput [PacketReceived] 10 HIGH) m)) = false.
Proof. vm_compute. repeat split. Qed.

(** C3, amended.  Every failure status returned by [begin], by [readData]
    and by the [startReceive] of [setup()] and of the RECEIVE mode entry is
    directly followed by a log line that reports it: in every trace of
    [setup()] and of a call of [loop()], and event by event on the halting
    paths of [setup()] and of the mode entry and on a failing [readData].
    The status of the re-arm [startReceive] that ends the handling of a
    received packet is discarded: whenever a call of [loop()] reads a
    packet, the re-arm is its last action and the call returns right after
    it, whatever it returned. *)
Theorem checked_failures_are_logged :
  (forall r, failures_logged_before_rearm lib false (fst (boot lib r)) = true)
  /\ (forall s,
        failures_logged_before_rearm lib false (fst (loop lib s)) = true)
  /\ (forall r,
        (fst (drv_begin lib r) =? RADIOLIB_ERR_NONE lib) = false ->
        fst (boot lib r)
        = [EvSerialBegin 115200; EvPinMode SWITCH_PIN;
           EvSpiBegin SCK_PIN MISO_PIN MOSI_PIN (-1);
           EvPrint "[CC1101] Initializing ... ";
           EvRadio OpBegin (fst (drv_begin lib r));
           EvPrint "failed, code "; EvPrintlnInt (fst (drv_begin lib r))])
  /\ (forall r,
        (fst (drv_begin lib r) =? RADIOLIB_ERR_NONE lib) = true ->
        (fst (drv_startReceive lib (snd (drv_begin lib r)))
         =? RADIOLIB_ERR_NONE lib) = false ->
        fst (boot lib r)
        = [EvSerialBegin 115200; EvPinMode SWITCH_PIN;
           EvSpiBegin SCK_PIN MISO_PIN MOSI_PIN (-1);
           EvPrint "[CC1101] Initializing ... ";
           EvRadio OpBegin (fst (drv_begin lib r)); EvPrintln "success!";
           EvSetPacketReceivedAction SetReceiveFlag;
           EvSetPacketSentAction SetSentFlag;
           EvPrint "[CC1101] Starting to listen ... ";
           EvRadio OpStartReceive
             (fst (drv_startReceive lib (snd (drv_begin lib r))));
           EvPrint "failed, code ";
           EvPrintlnInt (fst (drv_startReceive lib (snd (drv_begin lib r))))])
  /\ (forall s,
        press_detected s = true ->
        currentMode (globals s) = TRANSMIT ->
        (fst (drv_startReceive lib (radio s)) =? RADIOLIB_ERR_NONE lib)
        = false ->
        fst (loop lib s)
        = [EvPrint "Switched to "; EvPrintln "RECEIVE mode";
           EvPrint "[CC1101] Starting to listen ... ";
           EvRadio OpStartReceive (fst (drv_startReceive lib (radio s)));
           EvPrint "Failed, code ";
           EvPrintlnInt (fst (drv_startReceive lib (radio s)))])
  /\ (forall s,
        press_detected s = false ->
        currentMode (globals s) = RECEIVE ->
        receivedFlag (globals s) = true ->
        (fst (fst (drv_readData lib (radio s))) =? RADIOLIB_ERR_NONE lib)
        = false ->
        let c := fst (fst (drv_readData lib (radio s))) in
        exists c2,
          fst (loop lib s)
          = [EvFlagRead ReceivedFlag true; EvFlagWrite ReceivedFlag false;
             EvRadio OpReadData c]
            ++ (if c =? RADIOLIB_ERR_CRC_MISMATCH lib
                then [EvPrintln "CRC error!"]
                else [EvPrint "Failed, code "; EvPrintlnInt c])
            ++ [EvRadio OpStartReceive c2])
  /\ (forall s,
        press_detected s = false ->
        currentMode (globals s) = RECEIVE ->
        receivedFlag (globals s) = true ->
        exists c,
          last (fst (loop lib s)) (EvDelay 0) = EvRadio OpStartReceive c
          /\ returned (snd (loop lib s)) = true)
  /\ (forall s c',
        In (EvRadio OpReadData c') (fst (loop lib s)) ->
        exists c,
          last (fst (loop lib s)) (EvDelay 0) = EvRadio OpStartReceive c
          /\ returned (snd (loop lib s)) = true).
Proof.
  split; [exact boot_failures_logged|].
  split; [exact loop_failures_logged|].
  split; [exact setup_begin_failure_trace|].
  split; [exact setup_listen_failure_trace|].
  split; [exact entry_listen_failure_trace|].
  split; [exact read_failure_trace|].
  split; [exact rearm_status_discarded|].
  exact read_is_followed_by_rearm.
Qed.

(** *** Mode entry and steady state *)

(** C1, as stated, fails: the sent-flag is raised while the controller is in
    RECEIVE mode; on the step that detects the press edge and switches to
    TRANSMIT, the handler sends the greeting and, in the same call, clears
    the flag, finalises the transmission and starts the next packet. *)
Lemma entry_and_steady_state_in_one_call :
  let m := snd (steps scripted [mkInput [PacketSent] 10 LOW]
                  (snd (boot scripted []))) in
  let i := mkInput [] 51 LOW in
  is_halted m = false
  /\ currentMode (globals (state_of m)) = RECEIVE
  /\ press_detected (arrive i (state_of m)) = true
  /\ fst (step scripted i m)
     = [EvPrint "Switched to "; EvPrintln "TRANSMIT mode";
        EvPrint "[CC1101] Sending first packet ... ";
        EvRadio (OpStartTransmit "Hello World!") 0;
        EvFlagRead TransmittedFlag true; EvFlagWrite TransmittedFlag false;
        EvPrintln "Transmission finished!"; EvFinishTransmit; EvDelay 1000;
        EvPrint "[CC1101] Sending another packet ... ";
        EvRadio (OpStartTransmit "Hello World! #0") 0]
  /\ existsb is_steady_state_event (fst (step scripted i m)) = true.
Proof. vm_compute. repeat split. Qed.

(** C1, amended.  On a call of [loop()] that detects a press edge, the
    handler of the new mode first performs the entry action
    ([startTransmit] of the greeting for TRANSMIT, [startReceive] for
    RECEIVE, which halts the program if it fails) and then, in the same
    call, polls the event flag of the new mode: if the flag is clear the
    call ends there, and if it is set the steady-state body -- clear the
    flag, handle the packet, start the next operation (the next
    [startTransmit], or the re-arm [startReceive]) -- runs in that same
    call, after the entry action. *)
Theorem mode_entry_then_flag_poll (s : State R) :
  press_detected s = true ->
  let g := globals s in
  (currentMode g = RECEIVE ->
     let c := fst (drv_startTransmit lib "Hello World!" (radio s)) in
     exists rest,
       fst (loop lib s)
       = [EvPrint "Switched to "; EvPrintln "TRANSMIT mode";
          EvPrint "[CC1101] Sending first packet ... ";
          EvRadio (OpStartTransmit "Hello World!") c;
          EvFlagRead TransmittedFlag (transmittedFlag g)] ++ rest
       /\ returned (snd (loop lib s)) = true
       /\ (transmittedFlag g = false -> rest = [])
       /\ (transmittedFlag g = true ->
             exists c2,
               rest
               = EvFlagWrite TransmittedFlag false
                 :: (if c =? RADIOLIB_ERR_NONE lib
                     then [EvPrintln "Transmission finished!"]
                     else [EvPrint "Failed, code "; EvPrintlnInt c])
                 ++ [EvFinishTransmit; EvDelay 1000;
                     EvPrint "[CC1101] Sending another packet ... ";
                     EvRadio (OpStartTransmit
                                ("Hello World! #"
                                 ++ String_of_int (countReceivedPackets g)))
                             c2]))
  /\ (currentMode g = TRANSMIT ->
        let c := fst (drv_startReceive lib (radio s)) in
        exists rest,
          fst (loop lib s)
          = [EvPrint "Switched to "; EvPrintln "RECEIVE mode";
             EvPrint "[CC1101] Starting to listen ... ";
             EvRadio OpStartReceive c] ++ rest
          /\ ((c =? RADIOLIB_ERR_NONE lib) = false ->
                rest = [EvPrint "Failed, code "; EvPrintlnInt c]
                /\ returned (snd (loop lib s)) = false)
          /\ ((c =? RADIOLIB_ERR_NONE lib) = true ->
                returned (snd (loop lib s)) = true
                /\ exists rest',
                    rest = [EvPrintln "Success!";
                            EvFlagRead ReceivedFlag (receivedFlag g)] ++ rest'
                    /\ (receivedFlag g = false -> rest' = [])
                    /\ (receivedFlag g = true ->
                          let rd := drv_readData lib
                                      (snd (drv_startReceive lib (radio s))) in
                          let c' := fst (fst rd) in
                          let r1 := snd (drv_getRSSI lib (snd rd)) in
                          exists c2,
                            rest'
                            = EvFlagWrite ReceivedFlag false
                              :: EvRadio OpReadData c'
                              :: (if c' =? RADIOLIB_ERR_NONE lib then
                                    [EvPrintln "[CC1101] Received packet!";
                                     EvPrint ("[CC1101] Data:" ++ tab ++ tab);
                                     EvPrintln (snd (fst rd));
                                     EvPrint ("[CC1101] RSSI:" ++ tab ++ tab);
                                     EvGetRSSI;
                                     EvPrintFloat
                                       (fst (drv_getRSSI lib (snd rd)));
                                     EvPrintln " dBm";
                                     EvPrint ("[CC1101] LQI:" ++ tab ++ tab);
                                     EvGetLQI;
                                     EvPrintlnInt (fst (drv_getLQI lib r1))]
                                  else if c' =? RADIOLIB_ERR_CRC_MISMATCH lib
                                  then [EvPrintln "CRC error!"]
                                  else [EvPrint "Failed, code ";
                                        EvPrintlnInt c'])
                              ++ [EvRadio OpStartReceive c2]))).
Proof.
  unfold press_detected. intros Hp. cbv zeta.
  sketch_unfold. simpl.
  destruct (wasPressed _) as [p e'] eqn:W. simpl in Hp. subst p. simpl.
  split; intros Hm; rewrite Hm; simpl; repeat sketch_step; sketch_tidy;
    repeat match goal with
           | H1 : ?x = _, H2 : ?x = _ |- _ =>
               rewrite H1 in H2; inversion H2; clear H2; subst
           end;
    eexists; (split; [reflexivity|]);
    repeat split; intros; try discriminate; try reflexivity;
    try (eexists; reflexivity);
    try (eexists; split; [reflexivity|]; split; intros; try discriminate;
         try reflexivity; eexists; reflexivity).
Qed.

(** *** The recorded transmit status *)

(** In steady state, a set sent-flag makes the handler report success,
    whatever status the previous [startTransmit] recorded: the handler
    overwrites [transmissionState] on entry. *)
Lemma steady_transmit_reports_success (s : State R) :
  press_detected s = false ->
  currentMode (globals s) = TRANSMIT ->
  transmittedFlag (globals s) = true ->
  exists c,
    fst (loop lib s)
    = [EvFlagRead TransmittedFlag true; EvFlagWrite TransmittedFlag false;
       EvPrintln "Transmission finished!"; EvFinishTransmit; EvDelay 1000;
       EvPrint "[CC1101] Sending another packet ... ";
       EvRadio (OpStartTransmit
                  ("Hello World! #"
                   ++ String_of_int (countReceivedPackets (globals s)))) c].
Proof.
  unfold press_detected. intros Hp Hm Hf.
  sketch_unfold. simpl.
  destruct (wasPressed _) as [p e'] eqn:W. simpl in Hp. subst p. simpl.
  rewrite Hm. simpl. rewrite Hf. simpl. rewrite Z.eqb_refl. simpl.
  repeat sketch_step. eexists. reflexivity.
Qed.

(** C2 fails on the code.  The [startTransmit] of the mode entry returns
    the failure code -1, which is recorded in [transmissionState]; when the
    sent-flag of that transmission is consumed on the next call, the handler
    has reset [transmissionState] to success and logs
    "Transmission finished!" instead of the recorded failure. *)
Theorem recorded_status_overwritten :
  let m0 := snd (boot scripted [0; 0; -1]) in
  let m1 := snd (steps scripted [mkInput [] 10 LOW; mkInput [] 51 LOW] m0) in
  fst (steps scripted [mkInput [] 10 LOW; mkInput [] 51 LOW] m0)
  = [EvFlagRead ReceivedFlag false;
     EvPrint "Switched to "; EvPrintln "TRANSMIT mode";
     EvPrint "[CC1101] Sending first packet ... ";
     EvRadio (OpStartTransmit "Hello World!") (-1);
     EvFlagRead TransmittedFlag false]
  /\ transmissionState (globals (state_of m1)) = -1
  /\ fst (step scripted (mkInput [PacketSent] 5 LOW) m1)
     = [EvFlagWrite TransmittedFlag true;
        EvFlagRead TransmittedFlag true; EvFlagWrite TransmittedFlag false;
        EvPrintln "Transmission finished!"; EvFinishTransmit; EvDelay 1000;
        EvPrint "[CC1101] Sending another packet ... ";
        EvRadio (OpStartTransmit "Hello World! #0") 0].
Proof. vm_compute. repeat split. Qed.


(** *** The flags across mode switches *)

Lemma mode_switch_effect (pressed : bool) (s : State R) :
  snd (mode_switch (F := F) pressed s)
  = Return tt
      (set_globals
         (if pressed
          then set_modeChanged true
                 (set_currentMode (toggle (currentMode (globals s))) (globals s))
          else set_modeChanged false (globals s))
         s).
Proof. destruct pressed; reflexivity. Qed.

Lemma loop_flags (s : State R) :
  let s' := result_state (snd (loop lib s)) in
  (currentMode (globals s') = TRANSMIT ->
     receivedFlag (globals s') = receivedFlag (globals s)
     /\ transmittedFlag (globals s') = false)
  /\ (currentMode (globals s') = RECEIVE ->
        transmittedFlag (globals s') = transmittedFlag (globals s)
        /\ (returned (snd (loop lib s)) = true ->
              receivedFlag (globals s') = false)
        /\ (returned (snd (loop lib s)) = false ->
              modeChanged (globals s') = true
              /\ receivedFlag (globals s') = receivedFlag (globals s))).
Proof.
  sketch_run;
    destruct (currentMode (globals s)); simpl in *; try discriminate;
    repeat split; intros; try discriminate; try reflexivity; congruence.
Qed.

Lemma loop_halts_in_receive (s : State R) :
  returned (snd (loop lib s)) = false ->
  currentMode (globals (result_state (snd (loop lib s)))) = RECEIVE.
Proof.
  sketch_run; try discriminate; intros _.
  destruct (currentMode (globals s)) eqn:Em; rewrite ?Em in *; simpl in *;
    first [discriminate | reflexivity].
Qed.

Lemma loop_consumption_events (s : State R) :
  let s' := result_state (snd (loop lib s)) in
  let evs := fst (loop lib s) in
  (currentMode (globals s') = TRANSMIT -> transmittedFlag (globals s) = true ->
     In (EvFlagWrite TransmittedFlag false) evs /\ In EvFinishTransmit evs)
  /\ (currentMode (globals s') = RECEIVE -> receivedFlag (globals s) = true ->
        returned (snd (loop lib s)) = true ->
        In (EvFlagWrite ReceivedFlag false) evs
        /\ exists c, In (EvRadio OpReadData c) evs).
Proof.
  cbv zeta. sketch_run;
    (split; [intros Hm Hf | intros Hm Hf Hr]); try discriminate;
    try (exfalso; destruct (currentMode (globals s)) eqn:Em;
         rewrite ?Em in *; simpl in *; discriminate);
    (split; [|try eexists]; repeat (first [left; reflexivity | right])).
Qed.

Lemma step_keeps_other_flag (i : Input) (m : Machine) :
  let m' := snd (step lib i m) in
  (currentMode (globals (state_of m')) = TRANSMIT ->
     receivedFlag (globals (state_of m)) = true ->
     receivedFlag (globals (state_of m')) = true)
  /\ (currentMode (globals (state_of m')) = RECEIVE ->
        transmittedFlag (globals (state_of m)) = true ->
        transmittedFlag (globals (state_of m')) = true).
Proof.
  destruct m as [s|s]; cbv zeta.
  - destruct (step_running i s) as (a & b & evs & Hstep & _).
    cbv zeta in Hstep. rewrite Hstep. simpl snd.
    rewrite state_of_machine_of.
    set (s1 := arrive i (set_globals (raise_flags a b (globals s)) s)) in *.
    destruct (loop_flags s1) as [HT HR]. simpl.
    split; intros Hm Hf.
    + destruct (HT Hm) as [-> _]. simpl. now rewrite Hf.
    + destruct (HR Hm) as [-> _]. simpl. now rewrite Hf.
  - destruct (step_halted i s) as (a & b & evs & -> & _). simpl.
    split; intros _ ->; reflexivity.
Qed.

Lemma steps_keep_other_flag (inputs : list Input) (m : Machine) :
  (Forall (eq TRANSMIT) (modes_visited lib inputs m) ->
   receivedFlag (globals (state_of m)) = true ->
   receivedFlag (globals (state_of (snd (steps lib inputs m)))) = true)
  /\ (Forall (eq RECEIVE) (modes_visited lib inputs m) ->
      transmittedFlag (globals (state_of m)) = true ->
      transmittedFlag (globals (state_of (snd (steps lib inputs m)))) = true).
Proof.
  revert m. induction inputs as [|i inputs IH]; intros m; [simpl; auto|].
  cbn [steps modes_visited].
  destruct (step_keeps_other_flag i m) as [HT HR]. cbv zeta in HT, HR.
  destruct (step lib i m) as [evs m1]. simpl in *.
  destruct (IH m1) as [IT IR].
  destruct (steps lib inputs m1) as [evs' m2]. simpl in *.
  split; intros Hall Hf; inversion Hall; subst; auto.
Qed.

(** C10, as stated, fails: the received-flag is raised while the controller
    is in TRANSMIT mode; the next press switches to RECEIVE, the
    [startReceive] of the mode entry fails, and the program halts on that
    first step spent in RECEIVE mode with the flag still set -- the handler
    never reads it. *)
Lemma received_flag_stranded_by_halt :
  let inputs := [mkInput [] 10 LOW; mkInput [] 51 LOW;
                 mkInput [PacketReceived] 10 HIGH; mkInput [] 51 HIGH;
                 mkInput [] 10 LOW] in
  let m := snd (steps scripted inputs (snd (boot scripted [0; 0; 0; -2]))) in
  let i := mkInput [] 51 LOW in
  let m' := snd (step scripted i m) in
  is_halted m = false
  /\ currentMode (globals (state_of m)) = TRANSMIT
  /\ receivedFlag (globals (state_of m)) = true
  /\ press_detected (arrive i (state_of m)) = true
  /\ fst (step scripted i m)
     = [EvPrint "Switched to "; EvPrintln "RECEIVE mode";
        EvPrint "[CC1101] Starting to listen ... ";
        EvRadio OpStartReceive (-2);
        EvPrint "Failed, code "; EvPrintlnInt (-2)]
  /\ is_halted m' = true
  /\ currentMode (globals (state_of m')) = RECEIVE
  /\ receivedFlag (globals (state_of m')) = true.
Proof. vm_compute. repeat split. Qed.

(** C10, amended.  The mode switch mutates only [currentMode] and
    [modeChanged]; a call of [loop()] never touches the flag of the mode it
    is not in, so a flag that is set stays set for as long as the program is
    in the other mode, across any number of steps.  On a call spent in a
    flag's mode -- the mode-entry call included -- the matching handler
    consumes the flag: the flag is clear afterwards, and if it was set its
    packet was handled; except that the call which enters RECEIVE halts
    before reading the received-flag when the [startReceive] of the mode
    entry fails, and then leaves the flag as it was. *)
Theorem flags_survive_mode_switch :
  (forall pressed (s : State R),
      snd (mode_switch (F := F) pressed s)
      = Return tt
          (set_globals
             (if pressed
              then set_modeChanged true
                     (set_currentMode (toggle (currentMode (globals s)))
                                      (globals s))
              else set_modeChanged false (globals s))
             s))
  /\ (forall s,
        handleRotatoryEncoder lib s
        = bind rotatoryEncoder_update (fun _ =>
          bind rotatoryEncoder_wasPressed (fun pressed =>
          bind (mode_switch pressed) (fun _ => dispatch lib))) s)
  /\ (forall s,
        let s' := result_state (snd (loop lib s)) in
        (currentMode (globals s') = TRANSMIT ->
           receivedFlag (globals s') = receivedFlag (globals s))
        /\ (currentMode (globals s') = RECEIVE ->
              transmittedFlag (globals s') = transmittedFlag (globals s)))
  /\ (forall inputs m,
        (Forall (eq TRANSMIT) (modes_visited lib inputs m) ->
         receivedFlag (globals (state_of m)) = true ->
         receivedFlag (globals (state_of (snd (steps lib inputs m)))) = true)
        /\ (Forall (eq RECEIVE) (modes_visited lib inputs m) ->
            transmittedFlag (globals (state_of m)) = true ->
            transmittedFlag (globals (state_of (snd (steps lib inputs m))))
            = true))
  /\ (forall s,
        let s' := result_state (snd (loop lib s)) in
        let evs := fst (loop lib s) in
        (currentMode (globals s') = TRANSMIT ->
           transmittedFlag (globals s') = false
           /\ (transmittedFlag (globals s) = true ->
                 In (EvFlagWrite TransmittedFlag false) evs
                 /\ In EvFinishTransmit evs))
        /\ (currentMode (globals s') = RECEIVE ->
              returned (snd (loop lib s)) = true ->
              receivedFlag (globals s') = false
              /\ (receivedFlag (globals s) = true ->
                    In (EvFlagWrite ReceivedFlag false) evs
                    /\ exists c, In (EvRadio OpReadData c) evs))
        /\ (returned (snd (loop lib s)) = false ->
              currentMode (globals s') = RECEIVE
              /\ modeChanged (globals s') = true
              /\ receivedFlag (globals s') = receivedFlag (globals s))).
Proof.
  split; [exact mode_switch_effect|].
  split; [exact handleRotatoryEncoder_split|].
  split.
  { intros s. destruct (loop_flags s) as [HT HR]. cbv zeta.
    split; intros Hm; [apply (HT Hm) | apply (HR Hm)]. }
  split; [exact steps_keep_other_flag|].
  intros s. cbv zeta.
  destruct (loop_flags s) as [HT HR].
  destruct (loop_consumption_events s) as [ET ER]. cbv zeta in *.
  split; [|split].
  - intros Hm. split; [apply (HT Hm)|]. intros Hf. apply ET; auto.
  - intros Hm Hr. split; [apply (HR Hm); auto|]. intros Hf. apply ER; auto.
  - intros Hh. pose proof (loop_halts_in_receive s Hh) as Hm.
    split; auto. apply (HR Hm). exact Hh.
Qed.

End Controller.

(** *** Concrete runs *)

(** A run of the amended C3: [setup()] succeeds except for its
    [startReceive], which returns -2; the failure is logged. *)
Lemma checked_failures_are_logged_witness :
  fst (boot scripted [0; -2])
  = [EvSerialBegin 115200; EvPinMode SWITCH_PIN;
     EvSpiBegin SCK_PIN MISO_PIN MOSI_PIN (-1);
     EvPrint "[CC1101] Initializing ... ";
     EvRadio OpBegin 0; EvPrintln "success!";
     EvSetPacketReceivedAction SetReceiveFlag;
     EvSetPacketSentAction SetSentFlag;
     EvPrint "[CC1101] Starting to listen ... ";
     EvRadio OpStartReceive (-2);
     EvPrint "failed, code "; EvPrintlnInt (-2)]
  /\ failures_logged_before_rearm scripted false (fst (boot scripted [0; -2]))
     = true.
Proof.
  destruct (checked_failures_are_logged scripted) as (Hb & _ & _ & H & _).
  split; [apply (H [0; -2]); reflexivity | apply Hb].
Defined.

Lemma mode_entry_then_flag_poll_witness :
  let m := snd (steps scripted [mkInput [PacketSent] 10 LOW]
                  (snd (boot scripted []))) in
  let s := arrive (mkInput [] 51 LOW) (state_of m) in
  press_detected s = true
  /\ currentMode (globals s) = RECEIVE
  /\ exists rest,
       fst (loop scripted s)
       = [EvPrint "Switched to "; EvPrintln "TRANSMIT mode";
          EvPrint "[CC1101] Sending first packet ... ";
          EvRadio (OpStartTransmit "Hello World!") 0;
          EvFlagRead TransmittedFlag true] ++ rest.
Proof.
  assert (Hp : press_detected
                 (arrive (mkInput [] 51 LOW)
                    (state_of (snd (steps scripted [mkInput [PacketSent] 10 LOW]
                                      (snd (boot scripted [])))))) = true)
    by (vm_compute; reflexivity).
  split; [exact Hp|]. split; [vm_compute; reflexivity|].
  destruct (mode_entry_then_flag_poll scripted _ Hp) as [H _].
  destruct (H ltac:(vm_compute; reflexivity)) as (rest & Hrest & _).
  exists rest. exact Hrest.
Defined.


End LinkController.

(* ================================================================== *)
(** ** Further properties of the debounced switch monitor *)

Module SwitchMonitorMore.

Import RotatoryEncoder Props Coverage SwitchMonitor.

(** *** Frame: which call writes which field *)

Lemma run_config e samples :
  _switchPin (run e samples) = _switchPin e
  /\ _debounceDelay (run e samples) = _debounceDelay e
  /\ _holdTime (run e samples) = _holdTime e.
Proof.
  unfold run. revert e.
  induction samples as [|s samples IH]; intros e; simpl; auto.
  destruct (IH (update e (fst s) (millis (snd s)))) as (-> & -> & ->).
  destruct (update_config e (fst s) (millis (snd s))) as (-> & -> & -> & _).
  auto.
Qed.

(** X7. Whatever sequence of [update] and [wasPressed] calls is made, the
    pin and the two time constants keep the values the constructor stored;
    [update] never writes the previously recorded state, and the two edge
    queries write nothing else. *)
Theorem configuration_and_frames e :
  (forall cs,
      let e' := fst (exec e cs) in
      _switchPin e' = _switchPin e
      /\ _debounceDelay e' = _debounceDelay e
      /\ _holdTime e' = _holdTime e)
  /\ (forall r now, _previousState (update e r now) = _previousState e)
  /\ snd (wasPressed e) = set_previousState (_currentState e) e
  /\ snd (wasReleased e) = set_previousState (_currentState e) e.
Proof.
  split.
  { intros cs. revert e. induction cs as [|c cs IH]; intros e; simpl; auto.
    destruct c as [r t|].
    - cbv zeta in IH.
      destruct (IH (update e r (millis t))) as (-> & -> & ->).
      destruct (update_config e r (millis t)) as (-> & -> & -> & _). auto.
    - destruct (wasPressed e) as [b e1] eqn:W.
      specialize (IH e1). cbv zeta in IH.
      destruct (exec e1 cs) as [e2 bs]. simpl in *.
      destruct IH as (-> & -> & ->).
      replace e1 with (snd (wasPressed e)) by now rewrite W.
      destruct (wasPressed_state e) as [_ <-]. simpl. auto. }
  split; [intros r now; apply update_config|].
  split; symmetry; [apply wasPressed_state | apply wasReleased_state].
Qed.

(** *** The release query *)

Lemma wasReleased_true_iff e :
  fst (wasReleased e) = true
  <-> _currentState e = RELEASED /\ _previousState e <> RELEASED.
Proof.
  unfold wasReleased.
  destruct (_currentState e), (_previousState e); simpl;
    split; intros H; try discriminate;
    try (destruct H; congruence); split; congruence.
Qed.

Lemma release_transitions_previous v e samples :
  release_transitions (set_previousState v e) samples
  = release_transitions e samples.
Proof.
  revert e. induction samples as [|s samples IH]; intros e; simpl; auto.
  rewrite update_set_previousState, IH. reflexivity.
Qed.

Lemma poll_released_reports_transitions e samples :
  _previousState e = _currentState e ->
  snd (poll_released e samples) = release_transitions e samples.
Proof.
  revert e. induction samples as [|s samples IH]; intros e Hprev; simpl; auto.
  set (u := update e (fst s) (millis (snd s))).
  destruct (wasReleased u) as [b e'] eqn:W.
  assert (Hb : b = fst (wasReleased u)) by now rewrite W.
  assert (He' : e' = snd (wasReleased u)) by now rewrite W.
  destruct (wasReleased_state u) as [Hp Hs]. rewrite <- He' in Hp, Hs.
  specialize (IH e'). destruct (poll_released e' samples) as [e'' bs].
  simpl in *.
  rewrite IH by (rewrite Hp; subst e'; now rewrite <- Hs).
  rewrite <- Hs, release_transitions_previous. f_equal.
  assert (Hpu : _previousState u = _currentState e).
  { unfold u. destruct (update_config e (fst s) (millis (snd s)))
      as (_ & _ & _ & ->). exact Hprev. }
  destruct b.
  - symmetry in Hb. apply wasReleased_true_iff in Hb. destruct Hb as [Hc Hn].
    rewrite Hpu in Hn. rewrite Hc.
    destruct (_currentState e); simpl; congruence.
  - destruct (SwitchState_eqb (_currentState e) RELEASED) eqn:E1; auto.
    destruct (SwitchState_eqb (_currentState u) RELEASED) eqn:E2; auto.
    apply SwitchState_eqb_eq in E2.
    assert (fst (wasReleased u) = true) as Ht.
    { apply wasReleased_true_iff. split; auto. rewrite Hpu.
      intro Heq. apply SwitchState_eqb_eq in Heq. congruence. }
    congruence.
Qed.

(** X1. [wasReleased] returns true exactly when the current state is
    RELEASED and the previously recorded state is not; called after every
    [update] on a monitor fresh from its constructor, it returns true on
    exactly the calls that follow an [update] which moved the state to
    RELEASED, and false on all others. *)
Theorem wasReleased_edge_detection :
  (forall e, fst (wasReleased e) = true
             <-> _currentState e = RELEASED /\ _previousState e <> RELEASED)
  /\ (forall pin D H samples,
        snd (poll_released (new pin D H) samples)
        = release_transitions (new pin D H) samples).
Proof.
  split; [exact wasReleased_true_iff|].
  intros. apply poll_released_reports_transitions. reflexivity.
Qed.

(** X2. The two edge queries mask each other: whichever is called second
    on the same state returns false, even when the first one returned false
    and a transition is pending for the second. *)
Theorem edge_queries_mask_each_other e :
  fst (wasPressed (snd (wasReleased e))) = false
  /\ fst (wasReleased (snd (wasPressed e))) = false
  /\ fst (wasReleased (snd (wasReleased e))) = false.
Proof.
  repeat split.
  - destruct (fst (wasPressed (snd (wasReleased e)))) eqn:E; auto.
    apply wasPressed_true_iff in E. destruct E as [Hc Hp].
    destruct (wasReleased_state e) as [Hprev Hset].
    rewrite <- Hset in Hc. simpl in Hc. congruence.
  - destruct (fst (wasReleased (snd (wasPressed e)))) eqn:E; auto.
    apply wasReleased_true_iff in E. destruct E as [Hc Hp].
    destruct (wasPressed_state e) as [Hprev Hset].
    rewrite <- Hset in Hc. simpl in Hc. congruence.
  - destruct (fst (wasReleased (snd (wasReleased e)))) eqn:E; auto.
    apply wasReleased_true_iff in E. destruct E as [Hc Hp].
    destruct (wasReleased_state e) as [Hprev Hset].
    rewrite <- Hset in Hc. simpl in Hc. congruence.
Qed.

(** X3. At any time exactly one of the three state queries answers true;
    a press edge is reported only while [isPressed] holds, and a release
    edge only while [isReleased] holds. *)
Theorem state_queries_partition e :
  (isPressed e = true /\ isHeld e = false /\ isReleased e = false
   \/ isPressed e = false /\ isHeld e = true /\ isReleased e = false
   \/ isPressed e = false /\ isHeld e = false /\ isReleased e = true)
  /\ (fst (wasPressed e) = true -> isPressed e = true)
  /\ (fst (wasReleased e) = true -> isReleased e = true).
Proof.
  unfold isPressed, isHeld, isReleased.
  split; [destruct (_currentState e); simpl; tauto|].
  split; intros H.
  - apply wasPressed_true_iff in H. destruct H as [-> _]. reflexivity.
  - apply wasReleased_true_iff in H. destruct H as [-> _]. reflexivity.
Qed.

(** *** A stable level is followed *)

Lemma ulong_sub_millis_exact (t0 t : Z) :
  0 <= t - t0 < ulong_modulus -> ulong_sub (millis t) (millis t0) = t - t0.
Proof.
  intros H. unfold ulong_sub, millis, ulong.
  rewrite <- Zminus_mod. now apply Z.mod_small.
Qed.

(** After a run from construction, the debounce timer holds the time of the
    last raw-level change, and the last reading is the level since then. *)
Lemma run_timer pin D H pre r t0 :
  stable_since pre r t0 ->
  _lastDebounceTime (run (new pin D H) pre) = millis t0
  /\ _lastReading (run (new pin D H) pre) = r.
Proof.
  revert r t0. induction pre as [|[r' t'] pre IH] using rev_ind;
    intros r t0 (older & stable & Heq & Hst & Hold).
  - destruct older; discriminate.
  - rewrite run_snoc. simpl fst; simpl snd.
    rewrite update_lastReading, update_lastDebounceTime.
    destruct stable as [|x stable _] using rev_ind.
    + apply app_inj_tail in Heq. destruct Heq as [-> Hx].
      inversion Hx; subst r' t'.
      destruct (run_invariant pin D H older) as (HL & _).
      cbv zeta in HL. rewrite HL.
      destruct (Level_eqb r (last_reading older)) eqn:L; auto.
      apply Level_eqb_eq in L. congruence.
    + rewrite app_comm_cons, app_assoc in Heq.
      apply app_inj_tail in Heq. destruct Heq as [-> <-].
      apply Forall_app in Hst. destruct Hst as [Hst Hx].
      apply Forall_inv in Hx. simpl in Hx. subst r'.
      destruct (IH r t0) as [Ht Hl].
      { exists older, stable. auto. }
      rewrite Hl, Ht.
      replace (Level_eqb r r) with true
        by (symmetry; now apply Level_eqb_eq).
      auto.
Qed.

(** X4. The debounced state follows a stable raw level, also across the
    wrap of [millis()]: when the raw level has been LOW since a change that
    lies more than the debounce delay (and less than 2^32 ms) in the past, a
    RELEASED monitor becomes PRESSED and records the press start; when it has
    been HIGH that long, a PRESSED or HELD monitor becomes RELEASED. *)
Theorem stable_level_is_followed pin D H pre r t t0 :
  stable_since pre r t0 ->
  ulong D < t - t0 < ulong_modulus ->
  let e := run (new pin D H) pre in
  let e' := update e r (millis t) in
  (r = LOW -> _currentState e = RELEASED ->
     _currentState e' = PRESSED /\ _pressStartTime e' = millis t)
  /\ (r = HIGH -> _currentState e' = RELEASED).
Proof.
  intros Hst Hwin e e'.
  destruct (run_timer pin D H pre r t0 Hst) as [Ht Hl]. fold e in Ht, Hl.
  destruct (run_config (new pin D H) pre) as (_ & HD & _). fold e in HD.
  simpl in HD.
  pose proof (ulong_nonneg D) as HD0.
  assert (Hgate : (ulong_sub (millis t) (_lastDebounceTime e')
                   >? _debounceDelay e) = true).
  { unfold e'. rewrite update_lastDebounceTime, Hl.
    replace (Level_eqb r r) with true by (symmetry; now apply Level_eqb_eq).
    rewrite Ht, HD, ulong_sub_millis_exact by lia.
    apply Z.gtb_lt. lia. }
  split.
  - intros -> Hrel. unfold e'.
    rewrite update_pressStartTime, update_currentState.
    fold e'. rewrite Hgate, Hrel. simpl. auto.
  - intros ->. unfold e'. rewrite update_currentState. fold e'.
    rewrite Hgate. now destruct (_currentState e).
Qed.

Lemma stable_level_is_followed_witness :
  let pre := [(HIGH, 4294967000); (LOW, 4294967290)] in
  let e := run (new_default 4) pre in
  let e' := update e LOW (millis 4294967350) in
  millis 4294967350 = 54
  /\ _currentState e = RELEASED
  /\ _currentState e' = PRESSED /\ _pressStartTime e' = 54.
Proof.
  split; [reflexivity|]. split; [reflexivity|].
  assert (Hst : stable_since [(HIGH, 4294967000); (LOW, 4294967290)]
                  LOW 4294967290).
  { exists [(HIGH, 4294967000)], []. repeat split; auto. discriminate. }
  destruct (stable_level_is_followed 4 50 1000 _ LOW 4294967350 4294967290 Hst)
    as [Hlow _].
  { split; reflexivity. }
  apply Hlow; reflexivity.
Defined.

(** *** Holding *)

(** X5. While every reading is LOW, a monitor that is PRESSED or HELD never
    leaves that pair of states, and a HELD monitor stays HELD: holding the
    button neither releases it nor presses it again, whatever the times of
    the readings. *)
Theorem held_while_low e samples :
  Forall (fun s => fst s = LOW) samples ->
  (_currentState e <> RELEASED -> _currentState (run e samples) <> RELEASED)
  /\ (_currentState e = HELD -> _currentState (run e samples) = HELD).
Proof.
  unfold run. revert e.
  induction samples as [|s samples IH]; intros e Hall; simpl; auto.
  inversion Hall as [|? ? Hlow Hrest]; subst.
  destruct (IH (update e (fst s) (millis (snd s))) Hrest) as [IH1 IH2].
  split; intros Hc.
  - apply IH1. rewrite update_currentState, Hlow.
    destruct (_ >? _); auto.
    destruct (_currentState e); try congruence.
    destruct (_ >? _); discriminate.
  - apply IH2. rewrite update_currentState, Hlow, Hc.
    now destruct (_ >? _).
Qed.

Lemma held_while_low_witness :
  let e := run (new_default 4) [(LOW, 0); (LOW, 51); (LOW, 1052)] in
  _currentState e = HELD
  /\ _currentState (run e [(LOW, 2000); (LOW, 5000000000)]) = HELD.
Proof.
  split; [reflexivity|].
  apply (held_while_low
           (run (new_default 4) [(LOW, 0); (LOW, 51); (LOW, 1052)])
           [(LOW, 2000); (LOW, 5000000000)]).
  - repeat constructor.
  - reflexivity.
Defined.

(** *** Polling twice in the same millisecond *)

(** X6. For a monitor reached from its constructor, a second [update] with
    the same reading at the same clock value changes nothing: polling faster
    than the clock ticks has no effect. *)
Theorem update_same_instant_idempotent pin D H pre r t :
  let e := run (new pin D H) pre in
  update (update e r (millis t)) r (millis t) = update e r (millis t).
Proof.
  intros e.
  destruct (run_config (new pin D H) pre) as (_ & _ & HH). fold e in HH.
  simpl in HH. pose proof (ulong_nonneg H) as H0.
  generalize dependent e. intros e HH.
  pose proof (ulong_sub_diag (millis t)) as Hd.
  revert Hd. generalize (millis t) as now. intros now Hd.
  unfold update.
  destruct e as [a b c d cur lastr f g]. simpl in *. subst c.
  destruct r, lastr, cur; simpl;
    repeat (rewrite ?Hd in *; simpl in *;
            match goal with
            | |- context [?x >? ?y] =>
                let G := fresh "G" in
                destruct (Z.gtb_spec x y) as [G|G]
            end);
    rewrite ?Hd in *; simpl in *; try reflexivity; try lia.
Qed.

(** *** An idle switch *)

(** X8. A monitor fresh from its constructor that only ever reads HIGH (the
    idle level of the pulled-up pin) stays RELEASED and reports no edge,
    whatever the times of the readings. *)
Theorem idle_switch_reports_nothing pin D H samples :
  Forall (fun s => fst s = HIGH) samples ->
  let e := run (new pin D H) samples in
  _currentState e = RELEASED
  /\ fst (wasPressed e) = false
  /\ fst (wasReleased e) = false
  /\ Forall (eq false) (snd (poll (new pin D H) samples)).
Proof.
  intros Hall e.
  assert (Hstep : forall e0 s, fst s = HIGH -> _currentState e0 = RELEASED ->
            _currentState (update e0 (fst s) (millis (snd s))) = RELEASED).
  { intros e0 s Hh Hc. rewrite update_currentState, Hh, Hc.
    now destruct (_ >? _). }
  assert (Hgen : forall e0, _currentState e0 = RELEASED ->
            _currentState (run e0 samples) = RELEASED
            /\ Forall (eq false) (press_transitions e0 samples)).
  { unfold run. clear e.
    induction samples as [|s samples IH]; intros e0 Hc; simpl; auto.
    inversion Hall as [|? ? Hhigh Hrest]; subst.
    destruct (IH Hrest (update e0 (fst s) (millis (snd s)))) as [I1 I2];
      [now apply Hstep|].
    split; auto. constructor; auto.
    rewrite (Hstep e0 s Hhigh Hc). now rewrite andb_false_r. }
  destruct (Hgen (new pin D H) eq_refl) as [Hc Htr]. fold e in Hc.
  assert (Hp : _previousState e = RELEASED)
    by (unfold e; now rewrite run_previousState).
  split; auto. split; [|split].
  - destruct (fst (wasPressed e)) eqn:E; auto.
    apply wasPressed_true_iff in E. destruct E. congruence.
  - destruct (fst (wasReleased e)) eqn:E; auto.
    apply wasReleased_true_iff in E. destruct E. congruence.
  - rewrite poll_reports_transitions by reflexivity. exact Htr.
Qed.

Lemma idle_switch_reports_nothing_witness :
  let samples := [(HIGH, 0); (HIGH, 60); (HIGH, 5000)] in
  _currentState (run (new_default 4) samples) = RELEASED
  /\ snd (poll (new_default 4) samples) = [false; false; false].
Proof.
  destruct (idle_switch_reports_nothing 4 50 1000
              [(HIGH, 0); (HIGH, 60); (HIGH, 5000)])
    as (Hc & _ & _ & _).
  - repeat constructor.
  - split; [exact Hc | reflexivity].
Defined.

End SwitchMonitorMore.

(* ================================================================== *)
(** ** Further properties of the link mode controller *)

Module LinkControllerMore.

Import RotatoryEncoder Props Coverage SwitchMonitor LinkController.

(** Identify the results of a driver call that was split twice. *)
Ltac sketch_merge :=
  repeat match goal with
         | H1 : ?x = _, H2 : ?x = _ |- _ =>
             rewrite H1 in H2; inversion H2; clear H2; subst
         end.

Section More.

Context {R F : Type}.
Variable lib : RadioLib R F.

(** *** Start-up *)

(** X9. When [begin] and the first [startReceive] both succeed, [setup()]
    makes exactly these driver calls, in this order: [begin], the two
    callback registrations, [startReceive]; and it leaves the program
    running in RECEIVE mode with both flags clear, both callbacks
    registered and the globals at their initial values. *)
Theorem setup_success (r : R) :
  fst (drv_begin lib r) = RADIOLIB_ERR_NONE lib ->
  fst (drv_startReceive lib (snd (drv_begin lib r))) = RADIOLIB_ERR_NONE lib ->
  boot lib r
  = ([EvSerialBegin 115200; EvPinMode SWITCH_PIN;
      EvSpiBegin SCK_PIN MISO_PIN MOSI_PIN (-1);
      EvPrint "[CC1101] Initializing ... ";
      EvRadio OpBegin (RADIOLIB_ERR_NONE lib); EvPrintln "success!";
      EvSetPacketReceivedAction SetReceiveFlag;
      EvSetPacketSentAction SetSentFlag;
      EvPrint "[CC1101] Starting to listen ... ";
      EvRadio OpStartReceive (RADIOLIB_ERR_NONE lib); EvPrintln "success!"],
     Running (mkState (initial_globals lib) 0 HIGH
                (snd (drv_startReceive lib (snd (drv_begin lib r))))
                (Some SetReceiveFlag) (Some SetSentFlag))).
Proof.
  unfold boot, power_on. sketch_unfold. simpl.
  destruct (drv_begin lib r) as [c1 r1]. simpl. intros ->.
  rewrite Z.eqb_refl. simpl.
  destruct (drv_startReceive lib r1) as [c2 r2]. simpl. intros ->.
  rewrite Z.eqb_refl. reflexivity.
Qed.

Lemma interrupts_unregistered (l : list Irq) (s : State R) :
  packetReceivedAction s = None -> packetSentAction s = None ->
  interrupts (F := F) l s = ([], Return tt s).
Proof.
  intros Hr Hs. induction l as [|i l IH]; [reflexivity|].
  simpl. unfold bind, interrupt.
  destruct i; rewrite ?Hr, ?Hs; rewrite IH; reflexivity.
Qed.

Lemma steps_halted_unregistered (inputs : list Input) (s : State R) :
  packetReceivedAction s = None -> packetSentAction s = None ->
  let m := snd (steps lib inputs (Halted s)) in
  globals (state_of m) = globals s
  /\ writes_only false (fst (steps lib inputs (Halted s))) = true
  /\ writes_only true (fst (steps lib inputs (Halted s))) = true.
Proof.
  revert s. induction inputs as [|i inputs IH]; intros s Hr Hs;
    [simpl; auto|].
  cbn [steps]. unfold step, surroundings, bind.
  rewrite interrupts_unregistered by assumption. simpl.
  match goal with |- context [steps lib inputs (Halted ?s')] =>
    destruct (IH s') as (Hg & Hw & Hw'); [exact Hr | exact Hs |];
    destruct (steps lib inputs (Halted s')) as [evs m]
  end.
  simpl in *. auto.
Qed.

(** X10. When [begin] fails, [setup()] halts before the interrupt callbacks
    are registered: whatever interrupt requests arrive afterwards, no flag is
    ever written, both flags stay clear and the globals keep their initial
    values. *)
Theorem begin_failure_disables_interrupts (r : R) (inputs : list Input) :
  (fst (drv_begin lib r) =? RADIOLIB_ERR_NONE lib) = false ->
  let m := snd (steps lib inputs (snd (boot lib r))) in
  is_halted m = true
  /\ globals (state_of m) = initial_globals lib
  /\ writes_only false (fst (steps lib inputs (snd (boot lib r)))) = true
  /\ writes_only true (fst (steps lib inputs (snd (boot lib r)))) = true.
Proof.
  intros Hfail.
  assert (Hboot : snd (boot lib r)
                  = Halted (mkState (initial_globals lib) 0 HIGH
                              (snd (drv_begin lib r)) None None)).
  { unfold boot, power_on. sketch_unfold. simpl.
    destruct (drv_begin lib r) as [c1 r1]. simpl in *.
    rewrite Hfail. reflexivity. }
  rewrite Hboot. cbv zeta.
  destruct (steps_halted lib inputs
              (mkState (initial_globals lib) 0 HIGH
                 (snd (drv_begin lib r)) None None)) as [Hh _].
  destruct (steps_halted_unregistered inputs
              (mkState (initial_globals lib) 0 HIGH
                 (snd (drv_begin lib r)) None None) eq_refl eq_refl)
    as (Hg & Hw & Hw').
  auto.
Qed.

(** *** Idle iterations *)

(** X11. A call of [loop()] that detects no press edge and finds the flag
    of the current mode clear does nothing but read that flag: it makes no
    driver call, prints nothing, does not wait, and leaves the mode, both
    flags, the packet counter, the radio and the clock as they were. *)
Theorem idle_iteration_is_silent (s : State R) :
  press_detected s = false ->
  flag_value (mode_flag (currentMode (globals s))) (globals s) = false ->
  let s' := result_state (snd (loop lib s)) in
  fst (loop lib s) = [EvFlagRead (mode_flag (currentMode (globals s))) false]
  /\ returned (snd (loop lib s)) = true
  /\ currentMode (globals s') = currentMode (globals s)
  /\ receivedFlag (globals s') = receivedFlag (globals s)
  /\ transmittedFlag (globals s') = transmittedFlag (globals s)
  /\ countReceivedPackets (globals s') = countReceivedPackets (globals s)
  /\ radio s' = radio s
  /\ clock s' = clock s.
Proof.
  unfold press_detected. intros Hp Hf. cbv zeta.
  sketch_unfold. simpl.
  destruct (wasPressed _) as [p e'] eqn:W. simpl in Hp. subst p. simpl.
  destruct (currentMode (globals s)) eqn:Hm; simpl in *;
    rewrite Hf; simpl; repeat split; first [reflexivity | congruence].
Qed.

(** *** Finalising a transmission *)

Lemma finalises_transmission_spec (s : State R) :
  finalises_transmission s
  = Mode_eqb (currentMode (globals (result_state (snd (loop lib s))))) TRANSMIT
    && transmittedFlag (globals s).
Proof.
  unfold finalises_transmission.
  destruct (loop_effect lib s) as (_ & -> & _). reflexivity.
Qed.

(** X12. The packet counter moves only when a call of [loop()] finalises a
    transmission (TRANSMIT mode after the mode switch, sent-flag set): it is
    then incremented by one, as an [int], the packet sent carries the old
    value after "Hello World! #", that [startTransmit] is the last action of
    the call and its status is what [transmissionState] holds afterwards.
    In every other call the counter is untouched. *)
Theorem packet_counter_numbers_transmissions (s : State R) :
  let s' := result_state (snd (loop lib s)) in
  let n := countReceivedPackets (globals s) in
  countReceivedPackets (globals s')
  = (if finalises_transmission s then int_wrap (n + 1) else n)
  /\ (finalises_transmission s = true ->
        exists c,
          last (fst (loop lib s)) (EvDelay 0)
          = EvRadio (OpStartTransmit ("Hello World! #" ++ String_of_int n)) c
          /\ transmissionState (globals s') = c).
Proof.
  unfold finalises_transmission, press_detected. cbv zeta.
  sketch_run;
    destruct (currentMode (globals s)) eqn:Em; rewrite ?Em in *;
    simpl in *; try discriminate;
    (split; [reflexivity|]); intros Hfin; try discriminate;
    eexists; split; reflexivity.
Qed.

(** X13. A call of [loop()] blocks for one second exactly when it finalises
    a transmission; every other call -- also the one that halts -- leaves
    the clock where it was. *)
Theorem loop_blocks_only_to_pace_transmissions (s : State R) :
  clock (result_state (snd (loop lib s)))
  = clock s + (if finalises_transmission s then 1000 else 0).
Proof.
  unfold finalises_transmission, press_detected.
  sketch_run;
    destruct (currentMode (globals s)) eqn:Em; rewrite ?Em in *;
    simpl in *; try discriminate; lia.
Qed.

(** *** Handling a received packet *)

(** X14. In RECEIVE steady state with the received-flag set, the handler
    clears the flag, reads the packet, and classifies the status of
    [readData]: success prints the packet with its RSSI and LQI, a CRC
    mismatch prints "CRC error!", any other status prints the code; in all
    three cases the call then re-arms the receiver with [startReceive] and
    returns -- no read failure halts the program. *)
Theorem received_packet_is_classified (s : State R) :
  press_detected s = false ->
  currentMode (globals s) = RECEIVE ->
  receivedFlag (globals s) = true ->
  let c := fst (fst (drv_readData lib (radio s))) in
  let str := snd (fst (drv_readData lib (radio s))) in
  let r1 := snd (drv_readData lib (radio s)) in
  exists c2,
    fst (loop lib s)
    = [EvFlagRead ReceivedFlag true; EvFlagWrite ReceivedFlag false;
       EvRadio OpReadData c]
      ++ (if c =? RADIOLIB_ERR_NONE lib then
            [EvPrintln "[CC1101] Received packet!";
             EvPrint ("[CC1101] Data:" ++ tab ++ tab); EvPrintln str;
             EvPrint ("[CC1101] RSSI:" ++ tab ++ tab); EvGetRSSI;
             EvPrintFloat (fst (drv_getRSSI lib r1)); EvPrintln " dBm";
             EvPrint ("[CC1101] LQI:" ++ tab ++ tab); EvGetLQI;
             EvPrintlnInt (fst (drv_getLQI lib (snd (drv_getRSSI lib r1))))]
          else if c =? RADIOLIB_ERR_CRC_MISMATCH lib then
            [EvPrintln "CRC error!"]
          else [EvPrint "Failed, code "; EvPrintlnInt c])
      ++ [EvRadio OpStartReceive c2]
    /\ returned (snd (loop lib s)) = true
    /\ receivedFlag (globals (result_state (snd (loop lib s)))) = false.
Proof.
  unfold press_detected. intros Hp Hm Hf. cbv zeta.
  sketch_unfold. simpl.
  destruct (wasPressed _) as [p e'] eqn:W. simpl in Hp. subst p. simpl.
  rewrite Hm. simpl. rewrite Hf. simpl.
  repeat sketch_step; sketch_tidy; sketch_merge; eexists; repeat split;
    reflexivity.
Qed.

(** *** One handler per iteration *)

(** X15. Every call of [loop()] that returns polls exactly one event flag,
    the one of the mode it is in after the mode switch; the call that halts
    polls none. *)
Theorem one_flag_polled_per_iteration (s : State R) :
  flag_reads (fst (loop lib s))
  = if returned (snd (loop lib s))
    then [mode_flag (currentMode (globals (result_state (snd (loop lib s)))))]
    else [].
Proof.
  sketch_run;
    destruct (currentMode (globals s)) eqn:Em; rewrite ?Em in *;
    simpl in *; try discriminate; reflexivity.
Qed.

(** X21. The link is half duplex in every iteration: a call of [loop()]
    that ends in RECEIVE mode makes no transmit-side driver call
    ([startTransmit], [finishTransmit]), and a call that ends in TRANSMIT
    mode makes no receive-side call ([startReceive], [readData], [getRSSI],
    [getLQI]). *)
Theorem handlers_keep_to_their_side (s : State R) :
  existsb (if Mode_eqb (currentMode (globals (result_state (snd (loop lib s)))))
                       RECEIVE
           then is_transmit_call else is_receive_call)
          (fst (loop lib s)) = false.
Proof.
  sketch_run;
    destruct (currentMode (globals s)) eqn:Em; rewrite ?Em in *;
    simpl in *; try discriminate; reflexivity.
Qed.

(** X18. The entry action of a mode is announced on exactly the calls of
    [loop()] that detect a press edge, and [modeChanged] is true after
    exactly those calls. *)
Theorem entry_action_only_on_mode_change (s : State R) :
  existsb is_entry_event (fst (loop lib s)) = press_detected s
  /\ modeChanged (globals (result_state (snd (loop lib s)))) = press_detected s.
Proof.
  unfold press_detected. sketch_run; split; reflexivity.
Qed.

(** *** What the program never writes *)

Lemma loop_previousMode (s : State R) :
  previousMode (globals (result_state (snd (loop lib s))))
  = previousMode (globals s).
Proof. sketch_run; reflexivity. Qed.

Lemma step_previousMode (i : Input) (m : Machine) :
  previousMode (globals (state_of (snd (step lib i m))))
  = previousMode (globals (state_of m)).
Proof.
  destruct m as [s|s].
  - destruct (step_running lib i s) as (a & b & evs & Hstep & _).
    cbv zeta in Hstep. rewrite Hstep. simpl snd.
    rewrite state_of_machine_of, loop_previousMode. reflexivity.
  - destruct (step_halted lib i s) as (a & b & evs & -> & _). reflexivity.
Qed.

(** X16. [previousMode] is a dead variable: from power-on, through
    [setup()] and any number of steps, interrupts included, it keeps its
    initial value RECEIVE. *)
Theorem previousMode_is_never_written (r : R) (inputs : list Input) :
  previousMode (globals (state_of (snd (steps lib inputs (snd (boot lib r))))))
  = RECEIVE.
Proof.
  assert (Hboot : previousMode (globals (state_of (snd (boot lib r)))) = RECEIVE).
  { unfold boot, power_on. sketch_run; reflexivity. }
  revert Hboot. generalize (snd (boot lib r)) as m.
  induction inputs as [|i inputs IH]; intros m Hm; [exact Hm|].
  cbn [steps].
  pose proof (step_previousMode i m) as Hs.
  destruct (step lib i m) as [evs m1]. simpl in Hs.
  specialize (IH m1). destruct (steps lib inputs m1) as [evs' m2].
  simpl in *. apply IH. congruence.
Qed.

(** X20. A halted program ignores the switch: over any number of steps the
    monitor is never updated, and the mode, the radio and the packet counter
    stay as they were when the program halted. *)
Theorem halted_program_ignores_switch (inputs : list Input) (s : State R) :
  let s' := state_of (snd (steps lib inputs (Halted s))) in
  rotatoryEncoder (globals s') = rotatoryEncoder (globals s)
  /\ currentMode (globals s') = currentMode (globals s)
  /\ countReceivedPackets (globals s') = countReceivedPackets (globals s)
  /\ radio s' = radio s.
Proof.
  revert s. induction inputs as [|i inputs IH]; intros s; [simpl; auto|].
  cbn [steps].
  destruct (step_halted lib i s) as (a & b & evs & -> & _).
  match goal with |- context [steps lib inputs (Halted ?s1)] =>
    specialize (IH s1); destruct (steps lib inputs (Halted s1)) as [evs' m]
  end.
  simpl in *. exact IH.
Qed.

(** *** Coalescing of interrupts *)

Lemma interrupt_returns (i : Irq) (s : State R) :
  returned (snd (interrupt (F := F) i s)) = true.
Proof.
  destruct (interrupt_effect (F := F) i s) as (a & b & evs & -> & _).
  reflexivity.
Qed.

Lemma interrupt_idempotent (i : Irq) (s : State R) :
  result_state (snd (interrupt (F := F) i
                       (result_state (snd (interrupt (F := F) i s)))))
  = result_state (snd (interrupt (F := F) i s)).
Proof.
  unfold interrupt.
  destruct s as [g c l r pr ps]. destruct g.
  destruct i; [destruct pr as [[|]|] | destruct ps as [[|]|]]; reflexivity.
Qed.

Lemma interrupts_cons (i : Irq) (l : list Irq) (s : State R) :
  result_state (snd (interrupts (F := F) (i :: l) s))
  = result_state (snd (interrupts (F := F) l
                         (result_state (snd (interrupt (F := F) i s))))).
Proof.
  simpl. unfold bind.
  destruct (interrupt_effect (F := F) i s) as (a & b & evs & -> & _). simpl.
  now destruct (interrupts l _).
Qed.

(** X17. Interrupts of one kind are coalesced, not counted: any number of
    requests of the same kind arriving before the next step leaves the
    program in the same state as a single one. *)
Theorem repeated_interrupts_coalesce (i : Irq) (n : nat) (s : State R) :
  result_state (snd (interrupts (F := F) (repeat i (S n)) s))
  = result_state (snd (interrupts (F := F) [i] s)).
Proof.
  revert s. induction n as [|n IH]; intros s; [reflexivity|].
  change (repeat i (S (S n))) with (i :: repeat i (S n)).
  rewrite interrupts_cons, IH, !interrupts_cons. simpl.
  apply interrupt_idempotent.
Qed.

End More.

(** *** The serial heartbeat sketch *)

Section Heartbeat.

Context {R F : Type}.

(** X19. The bring-up sketch at the top of main.cpp never touches the
    radio: [setup()] prints its three banner lines, and [n] calls of
    [loop()] print "Hello world!" [n] times, one second apart, and change
    nothing but the clock. *)
Theorem heartbeat_only_prints (n : nat) (s : State R) :
  HelloSketch.setup (F := F) s
  = ([EvSerialBegin 115200; EvPrintln "=== ESP32-S3 Started! ===";
      EvPrintln "Serial monitor is working!";
      EvPrintln "Starting main loop..."],
     Return tt s)
  /\ HelloSketch.loops (F := F) n s
     = (List.concat (repeat [EvPrintln "Hello world!"; EvDelay 1000] n),
        Return tt (set_clock (clock s + 1000 * Z.of_nat n) s))
  /\ no_radio_call (fst (HelloSketch.loops (F := F) n s)) = true.
Proof.
  split; [reflexivity|].
  assert (Hl : HelloSketch.loops (F := F) n s
     = (List.concat (repeat [EvPrintln "Hello world!"; EvDelay 1000] n),
        Return tt (set_clock (clock s + 1000 * Z.of_nat n) s))).
  { revert s. induction n as [|n IH]; intros s.
    - simpl. unfold ret. destruct s. unfold set_clock. simpl.
      now rewrite Z.add_0_r.
    - cbn [HelloSketch.loops]. unfold bind at 1.
      unfold HelloSketch.loop, bind, Serial_println, emit, delay.
      cbn -[Z.mul Z.of_nat Z.add HelloSketch.loops].
      rewrite IH. destruct s. unfold set_clock.
      cbn -[Z.mul Z.of_nat Z.add]. do 3 f_equal. lia. }
  split; [exact Hl|].
  rewrite Hl. simpl. clear Hl.
  induction n as [|n IH]; simpl; auto.
Qed.

End Heartbeat.

(** *** Concrete runs *)

Lemma setup_success_witness :
  is_halted (snd (boot scripted [])) = false
  /\ packetSentAction (state_of (snd (boot scripted []))) = Some SetSentFlag.
Proof.
  rewrite (setup_success scripted []); [split; reflexivity | reflexivity ..].
Defined.

Lemma begin_failure_disables_interrupts_witness :
  let inputs := [mkInput [PacketReceived; PacketSent] 10 LOW;
                 mkInput [PacketSent] 51 LOW] in
  let m := snd (steps scripted inputs (snd (boot scripted [-1]))) in
  is_halted m = true /\ globals (state_of m) = initial_globals scripted.
Proof.
  destruct (begin_failure_disables_interrupts scripted [-1]
              [mkInput [PacketReceived; PacketSent] 10 LOW;
               mkInput [PacketSent] 51 LOW] eq_refl) as (Hh & Hg & _).
  split; [exact Hh | exact Hg].
Defined.

Lemma idle_iteration_is_silent_witness :
  let s := arrive (mkInput [] 10 HIGH) (state_of (snd (boot scripted []))) in
  fst (loop scripted s) = [EvFlagRead ReceivedFlag false]
  /\ returned (snd (loop scripted s)) = true.
Proof.
  destruct (idle_iteration_is_silent scripted
              (arrive (mkInput [] 10 HIGH) (state_of (snd (boot scripted []))))
              eq_refl eq_refl) as (He & Hr & _).
  split; [exact He | exact Hr].
Defined.

Lemma received_packet_is_classified_witness :
  let s0 := state_of (snd (boot scripted [0; 0; -7])) in
  let s := arrive (mkInput [] 10 HIGH)
             (result_state (snd (interrupts (F := Z) [PacketReceived] s0))) in
  exists c2,
    fst (loop scripted s)
    = [EvFlagRead ReceivedFlag true; EvFlagWrite ReceivedFlag false;
       EvRadio OpReadData (-7); EvPrintln "CRC error!";
       EvRadio OpStartReceive c2]
    /\ returned (snd (loop scripted s)) = true.
Proof.
  destruct (received_packet_is_classified scripted
              (arrive (mkInput [] 10 HIGH)
                 (result_state
                    (snd (interrupts (F := Z) [PacketReceived]
                            (state_of (snd (boot scripted [0; 0; -7])))))))
              ltac:(vm_compute; reflexivity) ltac:(vm_compute; reflexivity)
              ltac:(vm_compute; reflexivity)) as (c2 & He & Hr & _).
  exists c2. split; [exact He | exact Hr].
Defined.

End LinkControllerMore.
